(** * carlot: the listing harvester and the detail-page extractor of
    [carscrape.py], embedded in Rocq.

    The script drives a headless browser.  The browser, the pages it renders
    and the logger are collaborators outside the script; what the script can
    observe of them is modelled by plain data:

    - a result page is the answer to the three lookups the harvester makes
      on it (the count header, the result markers, the "next" arrow);
    - a detail page is the answer to the lookups the extractor makes on it;
    - the web is a function from URLs to what [browser.get] finds there.

    Python exceptions are values of [exn]; code that can raise runs in a
    small state-and-error monad whose state is the trace of browser actions
    performed so far (newest first).  Calls to [logger] have no influence on
    control flow or on any returned value and are left out. *)

From Stdlib Require Import ZArith Ascii String List Lia.
From stdpp Require Import base option list gmap sets strings.

Local Open Scope string_scope.
Local Open Scope list_scope.

(** ** Python exceptions and outcomes *)

Inductive exn : Type :=
| AttributeError
| NoSuchElementException
| ValueError
| IndexError
| KeyError
| TimeoutException.

(** [OutOfFuel] is not a Python outcome: it marks a run of the [while True]
    loop that was cut off by the step bound of the model. *)
Inductive outcome (A : Type) : Type :=
| Returns (a : A)
| Raises (e : exn)
| OutOfFuel.

Arguments Returns {A} a.
Arguments Raises {A} e.
Arguments OutOfFuel {A}.

(** ** Browser actions *)

Inductive event : Type :=
| EvOpen (url : string)        (* Firefox started and [get url] succeeded *)
| EvOpenFailed (url : string)  (* Firefox started, [get url] raised *)
| EvRead (page : nat)          (* result markers of page [page] were read *)
| EvClick (page : nat)         (* the "next" arrow of page [page] was clicked *)
| EvClose.                     (* [close] and [quit] were called *)

Definition trace : Type := list event.

Module Run.

Definition M (A : Type) : Type := trace -> outcome A * trace.

Definition ret {A} (a : A) : M A := fun tr => (Returns a, tr).

Definition raise {A} (e : exn) : M A := fun tr => (Raises e, tr).

Definition out_of_fuel {A} : M A := fun tr => (OutOfFuel, tr).

Definition emit (e : event) : M unit := fun tr => (Returns tt, e :: tr).

Definition bind {A B} (m : M A) (k : A -> M B) : M B :=
  fun tr =>
    match m tr with
    | (Returns a, tr') => k a tr'
    | (Raises e, tr') => (Raises e, tr')
    | (OutOfFuel, tr') => (OutOfFuel, tr')
    end.

(** A lookup that raises [e] when there is nothing to find. *)
Definition orelse {A} (o : option A) (e : exn) : M A :=
  match o with
  | Some a => ret a
  | None => raise e
  end.

End Run.

Import Run.

#[global] Instance M_ret : MRet M := @ret.
#[global] Instance M_bind : MBind M := fun A B k m => bind m k.

(** ** Python string helpers *)

(** [s.split(sep)] for a one-character separator: never empty. *)
Fixpoint split (sep : ascii) (s : string) : list string :=
  match s with
  | EmptyString => [EmptyString]
  | String c s' =>
      if Ascii.eqb c sep then EmptyString :: split sep s'
      else match split sep s' with
           | x :: xs => String c x :: xs
           | [] => [String c EmptyString]
           end
  end.

(** [l[i]] for [i >= 0]. *)
Definition index {A} (l : list A) (i : nat) : M A := orelse (l !! i) IndexError.

(** [l[-1]]. *)
Definition index_last {A} (l : list A) : M A := orelse (last l) IndexError.

(** The characters [int] strips from both ends of an ASCII string: tab,
    line feed, vertical tab, form feed, carriage return and space.  (The
    separators 28-31 count for [str.isspace], not for [int].) *)
Definition is_space (c : ascii) : bool :=
  let n := nat_of_ascii c in
  ((9 <=? n)%nat && (n <=? 13)%nat) || (n =? 32)%nat.

Definition digit_of (c : ascii) : option Z :=
  let n := nat_of_ascii c in
  if ((48 <=? n)%nat && (n <=? 57)%nat) then Some (Z.of_nat (n - 48)) else None.

Fixpoint lstrip (s : string) : string :=
  match s with
  | String c s' => if is_space c then lstrip s' else s
  | EmptyString => EmptyString
  end.

Fixpoint rstrip (s : string) : string :=
  match s with
  | EmptyString => EmptyString
  | String c s' =>
      match rstrip s' with
      | EmptyString => if is_space c then EmptyString else String c EmptyString
      | r => String c r
      end
  end.

(** Digits with single underscores between them, as in a Python literal. *)
Fixpoint digits_value (acc : Z) (after_digit : bool) (s : string) : option Z :=
  match s with
  | EmptyString => if after_digit then Some acc else None
  | String c s' =>
      match digit_of c with
      | Some d => digits_value (10 * acc + d)%Z true s'
      | None =>
          if Ascii.eqb c "_"%char && after_digit
          then digits_value acc false s'
          else None
      end
  end.

(** The number of decimal digits in a string. *)
Fixpoint digit_count (s : string) : nat :=
  match s with
  | EmptyString => 0
  | String c s' =>
      match digit_of c with
      | Some _ => S (digit_count s')
      | None => digit_count s'
      end
  end.

(** [sys.int_info.default_max_str_digits]. *)
Definition MAX_STR_DIGITS : nat := 4300.

(** The digits after the sign.  CPython from 3.7.14 on raises [ValueError]
    for more than 4300 digits; earlier versions convert them.  The model
    rejects them, so a statement that assumes a successful parse holds for
    both. *)
Definition literal_value (r : string) : option Z :=
  if (MAX_STR_DIGITS <? digit_count r)%nat then None
  else digits_value 0 false r.

(** [int(s)] on a string of ASCII characters: surrounding whitespace, an
    optional sign, decimal digits.  [None] stands for [ValueError].  Python
    also accepts decimal digits and whitespace outside ASCII; every statement
    below that depends on [py_int] assumes a successful parse, so it says
    nothing about such strings. *)
Definition py_int (s : string) : option Z :=
  match lstrip (rstrip s) with
  | String "-" r => Z.opp <$> literal_value r
  | String "+" r => literal_value r
  | r => literal_value r
  end.

Definition int (s : string) : M Z := orelse (py_int s) ValueError.

(** ** Constants and data types *)

Definition BASE_URL : string := "https://www.autotrader.co.uk".
Definition POSTCODE : string := "PO16+7GZ".

(** A row of the CSV file: three strings. *)
Record CarTup : Type := {
  make : string;
  model : string;
  total : string
}.

(** The class [Advertisement]: seventeen string attributes.  An attribute
    assignment [ad.f = v] is the setter [set_f v ad]. *)
Module Advertisement.

Record t : Type := {
  hyperlink : string;
  description : string;
  seller_type : string;
  price : string;
  make : string;
  model : string;
  year : string;
  mileage : string;
  body_style : string;
  co2emission : string;
  doors : string;
  transmission : string;
  was_stolen : string;
  was_write_off : string;
  was_scrapped : string;
  engine_size : string;
  fuel_type : string
}.

(** [__init__]: every attribute starts as the empty string. *)
Definition init : t :=
  {| hyperlink := ""; description := ""; seller_type := ""; price := "";
     make := ""; model := ""; year := ""; mileage := ""; body_style := "";
     co2emission := ""; doors := ""; transmission := ""; was_stolen := "";
     was_write_off := ""; was_scrapped := ""; engine_size := ""; fuel_type
     := "" |}.

Definition set_hyperlink (v : string) (ad : t) : t :=
  {| hyperlink := v; description := description ad; seller_type :=
     seller_type ad; price := price ad; make := make ad; model := model ad;
     year := year ad; mileage := mileage ad; body_style := body_style ad;
     co2emission := co2emission ad; doors := doors ad; transmission :=
     transmission ad; was_stolen := was_stolen ad; was_write_off :=
     was_write_off ad; was_scrapped := was_scrapped ad; engine_size :=
     engine_size ad; fuel_type := fuel_type ad |}.

Definition set_description (v : string) (ad : t) : t :=
  {| hyperlink := hyperlink ad; description := v; seller_type := seller_type
     ad; price := price ad; make := make ad; model := model ad; year := year
     ad; mileage := mileage ad; body_style := body_style ad; co2emission :=
     co2emission ad; doors := doors ad; transmission := transmission ad;
     was_stolen := was_stolen ad; was_write_off := was_write_off ad;
     was_scrapped := was_scrapped ad; engine_size := engine_size ad;
     fuel_type := fuel_type ad |}.

Definition set_seller_type (v : string) (ad : t) : t :=
  {| hyperlink := hyperlink ad; description := description ad; seller_type
     := v; price := price ad; make := make ad; model := model ad; year :=
     year ad; mileage := mileage ad; body_style := body_style ad;
     co2emission := co2emission ad; doors := doors ad; transmission :=
     transmission ad; was_stolen := was_stolen ad; was_write_off :=
     was_write_off ad; was_scrapped := was_scrapped ad; engine_size :=
     engine_size ad; fuel_type := fuel_type ad |}.

Definition set_price (v : string) (ad : t) : t :=
  {| hyperlink := hyperlink ad; description := description ad; seller_type
     := seller_type ad; price := v; make := make ad; model := model ad; year
     := year ad; mileage := mileage ad; body_style := body_style ad;
     co2emission := co2emission ad; doors := doors ad; transmission :=
     transmission ad; was_stolen := was_stolen ad; was_write_off :=
     was_write_off ad; was_scrapped := was_scrapped ad; engine_size :=
     engine_size ad; fuel_type := fuel_type ad |}.

Definition set_make (v : string) (ad : t) : t :=
  {| hyperlink := hyperlink ad; description := description ad; seller_type
     := seller_type ad; price := price ad; make := v; model := model ad;
     year := year ad; mileage := mileage ad; body_style := body_style ad;
     co2emission := co2emission ad; doors := doors ad; transmission :=
     transmission ad; was_stolen := was_stolen ad; was_write_off :=
     was_write_off ad; was_scrapped := was_scrapped ad; engine_size :=
     engine_size ad; fuel_type := fuel_type ad |}.

Definition set_model (v : string) (ad : t) : t :=
  {| hyperlink := hyperlink ad; description := description ad; seller_type
     := seller_type ad; price := price ad; make := make ad; model := v; year
     := year ad; mileage := mileage ad; body_style := body_style ad;
     co2emission := co2emission ad; doors := doors ad; transmission :=
     transmission ad; was_stolen := was_stolen ad; was_write_off :=
     was_write_off ad; was_scrapped := was_scrapped ad; engine_size :=
     engine_size ad; fuel_type := fuel_type ad |}.

Definition set_year (v : string) (ad : t) : t :=
  {| hyperlink := hyperlink ad; description := description ad; seller_type
     := seller_type ad; price := price ad; make := make ad; model := model
     ad; year := v; mileage := mileage ad; body_style := body_style ad;
     co2emission := co2emission ad; doors := doors ad; transmission :=
     transmission ad; was_stolen := was_stolen ad; was_write_off :=
     was_write_off ad; was_scrapped := was_scrapped ad; engine_size :=
     engine_size ad; fuel_type := fuel_type ad |}.

Definition set_mileage (v : string) (ad : t) : t :=
  {| hyperlink := hyperlink ad; description := description ad; seller_type
     := seller_type ad; price := price ad; make := make ad; model := model
     ad; year := year ad; mileage := v; body_style := body_style ad;
     co2emission := co2emission ad; doors := doors ad; transmission :=
     transmission ad; was_stolen := was_stolen ad; was_write_off :=
     was_write_off ad; was_scrapped := was_scrapped ad; engine_size :=
     engine_size ad; fuel_type := fuel_type ad |}.

Definition set_body_style (v : string) (ad : t) : t :=
  {| hyperlink := hyperlink ad; description := description ad; seller_type
     := seller_type ad; price := price ad; make := make ad; model := model
     ad; year := year ad; mileage := mileage ad; body_style := v;
     co2emission := co2emission ad; doors := doors ad; transmission :=
     transmission ad; was_stolen := was_stolen ad; was_write_off :=
     was_write_off ad; was_scrapped := was_scrapped ad; engine_size :=
     engine_size ad; fuel_type := fuel_type ad |}.

Definition set_co2emission (v : string) (ad : t) : t :=
  {| hyperlink := hyperlink ad; description := description ad; seller_type
     := seller_type ad; price := price ad; make := make ad; model := model
     ad; year := year ad; mileage := mileage ad; body_style := body_style
     ad; co2emission := v; doors := doors ad; transmission := transmission
     ad; was_stolen := was_stolen ad; was_write_off := was_write_off ad;
     was_scrapped := was_scrapped ad; engine_size := engine_size ad;
     fuel_type := fuel_type ad |}.

Definition set_doors (v : string) (ad : t) : t :=
  {| hyperlink := hyperlink ad; description := description ad; seller_type
     := seller_type ad; price := price ad; make := make ad; model := model
     ad; year := year ad; mileage := mileage ad; body_style := body_style
     ad; co2emission := co2emission ad; doors := v; transmission :=
     transmission ad; was_stolen := was_stolen ad; was_write_off :=
     was_write_off ad; was_scrapped := was_scrapped ad; engine_size :=
     engine_size ad; fuel_type := fuel_type ad |}.

Definition set_transmission (v : string) (ad : t) : t :=
  {| hyperlink := hyperlink ad; description := description ad; seller_type
     := seller_type ad; price := price ad; make := make ad; model := model
     ad; year := year ad; mileage := mileage ad; body_style := body_style
     ad; co2emission := co2emission ad; doors := doors ad; transmission :=
     v; was_stolen := was_stolen ad; was_write_off := was_write_off ad;
     was_scrapped := was_scrapped ad; engine_size := engine_size ad;
     fuel_type := fuel_type ad |}.

Definition set_was_stolen (v : string) (ad : t) : t :=
  {| hyperlink := hyperlink ad; description := description ad; seller_type
     := seller_type ad; price := price ad; make := make ad; model := model
     ad; year := year ad; mileage := mileage ad; body_style := body_style
     ad; co2emission := co2emission ad; doors := doors ad; transmission :=
     transmission ad; was_stolen := v; was_write_off := was_write_off ad;
     was_scrapped := was_scrapped ad; engine_size := engine_size ad;
     fuel_type := fuel_type ad |}.

Definition set_was_write_off (v : string) (ad : t) : t :=
  {| hyperlink := hyperlink ad; description := description ad; seller_type
     := seller_type ad; price := price ad; make := make ad; model := model
     ad; year := year ad; mileage := mileage ad; body_style := body_style
     ad; co2emission := co2emission ad; doors := doors ad; transmission :=
     transmission ad; was_stolen := was_stolen ad; was_write_off := v;
     was_scrapped := was_scrapped ad; engine_size := engine_size ad;
     fuel_type := fuel_type ad |}.

Definition set_was_scrapped (v : string) (ad : t) : t :=
  {| hyperlink := hyperlink ad; description := description ad; seller_type
     := seller_type ad; price := price ad; make := make ad; model := model
     ad; year := year ad; mileage := mileage ad; body_style := body_style
     ad; co2emission := co2emission ad; doors := doors ad; transmission :=
     transmission ad; was_stolen := was_stolen ad; was_write_off :=
     was_write_off ad; was_scrapped := v; engine_size := engine_size ad;
     fuel_type := fuel_type ad |}.

Definition set_engine_size (v : string) (ad : t) : t :=
  {| hyperlink := hyperlink ad; description := description ad; seller_type
     := seller_type ad; price := price ad; make := make ad; model := model
     ad; year := year ad; mileage := mileage ad; body_style := body_style
     ad; co2emission := co2emission ad; doors := doors ad; transmission :=
     transmission ad; was_stolen := was_stolen ad; was_write_off :=
     was_write_off ad; was_scrapped := was_scrapped ad; engine_size := v;
     fuel_type := fuel_type ad |}.

Definition set_fuel_type (v : string) (ad : t) : t :=
  {| hyperlink := hyperlink ad; description := description ad; seller_type
     := seller_type ad; price := price ad; make := make ad; model := model
     ad; year := year ad; mileage := mileage ad; body_style := body_style
     ad; co2emission := co2emission ad; doors := doors ad; transmission :=
     transmission ad; was_stolen := was_stolen ad; was_write_off :=
     was_write_off ad; was_scrapped := was_scrapped ad; engine_size :=
     engine_size ad; fuel_type := v |}.

End Advertisement.

(** ** The browser session *)

(** What the harvester can see of one rendered result page. *)
Record SearchPage : Type := {
  (* text of the element of class [search-form__count.js-results-count];
     [None] when there is no such element *)
  count_header : option string;
  (* the [id] attribute of every element of class [search-page__result] *)
  result_ids : list string;
  (* the element of class [pagination--right__active]: [None] when absent,
     [Some true] when a click on it loads the next page and detaches it,
     [Some false] when it is still attached after the 60 s wait *)
  next_arrow : option bool
}.

(** A results site: the page shown after [n] successful "next" clicks. *)
Definition Site : Type := nat -> SearchPage.

(** A live browser on a results site. *)
Record Browser : Type := {
  loaded : Site;
  page_no : nat
}.

Definition current (b : Browser) : SearchPage := loaded b (page_no b).

Definition fresh (s : Site) : Browser := {| loaded := s; page_no := 0 |}.

Section Session.

(** The kind of document a URL leads to. *)
Context {D : Type}.

(** [open_browser]: start Firefox and load [next_url].  [web next_url] is
    [None] when [browser.get] raises; the function then returns [None] and
    the browser it started is not closed.  Starting Firefox itself is taken
    to succeed. *)
Definition open_browser (web : string -> option D) (next_url : string)
  : M (option D) :=
  match web next_url with
  | Some d => emit (EvOpen next_url);; mret (Some d)
  | None => emit (EvOpenFailed next_url);; mret None
  end.

(** [clean_up]: [close] and [quit] inside [try / except Exception], so it
    never raises.  On [None] the attribute lookup raises, which the handler
    swallows; on a live browser both calls are taken to succeed. *)
Definition clean_up (browser : option D) : M unit :=
  match browser with
  | Some _ => emit EvClose
  | None => mret tt
  end.

End Session.

(** ** The listing harvester *)

Definition search_url (next_make next_model : string) : string :=
  BASE_URL +:+ "/car-search?" +:+
  "advertising-location=at_cars&" +:+
  "price-search-type=total-price&" +:+
  "search-target=usedcars&" +:+
  "postcode=" +:+ POSTCODE +:+ "&" +:+
  "make=" +:+ next_make +:+ "&" +:+
  "model=" +:+ next_model +:+ "&".

(** [for car in found_cars: cars_found.add(car.get_attribute('id'))] *)
Definition add_all (found_cars : list string) (cars_found : gset string)
  : gset string :=
  foldl (fun acc id => {[id]} ∪ acc) cars_found found_cars.

(** [browser.find_elements_by_class_name('search-page__result')] *)
Definition find_results (b : Browser) : M (list string) :=
  emit (EvRead (page_no b));; mret (result_ids (current b)).

(** [find_element_by_class_name('pagination--right__active')], the scripted
    click and the wait for staleness. *)
Definition next_page (b : Browser) : M Browser :=
  next_arrow ← orelse (next_arrow (current b)) NoSuchElementException;
  emit (EvClick (page_no b));;
  if next_arrow : bool
  then mret {| loaded := loaded b; page_no := S (page_no b) |}
  else raise TimeoutException.

(** The [while True] loop, lines 229-246, cut off after [fuel] rounds. *)
Fixpoint harvest_loop (fuel : nat) (total_cars : Z)
    (browser : option Browser) (cars_found : gset string)
  : M (gset string * option Browser) :=
  match fuel with
  | O => out_of_fuel
  | S fuel' =>
      cars_found ←
        match browser with
        | Some b =>
            found_cars ← find_results b;
            mret (add_all found_cars cars_found)
        | None => mret cars_found
        end;
      if (total_cars <=? Z.of_nat (size cars_found))%Z
      then mret (cars_found, browser)
      else
        b ← orelse browser AttributeError;
        b' ← next_page b;
        harvest_loop fuel' total_cars (Some b') cars_found
  end.

Definition search_one_car_type (fuel : nat) (web : string -> option Site)
    (next_car : CarTup) : M (gset string) :=
  let next_make := make next_car in
  let next_model := model next_car in
  total_cars ← int (total next_car);
  let cars_found : gset string := ∅ in
  opened ← open_browser web (search_url next_make next_model);
  let browser := fresh <$> opened in
  (* the website's own total: computed, then not used *)
  b ← orelse browser AttributeError;
  total_header ← orelse (count_header (current b)) NoSuchElementException;
  actual_total_string ← index (split " " total_header) 0;
  actual_total ← int actual_total_string;
  '(cars_found, browser) ← harvest_loop fuel total_cars browser cars_found;
  clean_up browser;;
  mret cars_found.

(** Run [f] on every element, in order, stopping at the first exception. *)
Fixpoint for_each {A B} (f : A -> M B) (l : list A) : M (list B) :=
  match l with
  | [] => mret []
  | x :: l' => y ← f x; ys ← for_each f l'; mret (y :: ys)
  end.

Definition search_all_car_types (fuel : nat) (web : string -> option Site)
    (these_cars : list CarTup) : M (list (string * string * gset string)) :=
  for_each (fun next_car =>
              next_set ← search_one_car_type fuel web next_car;
              mret (make next_car, model next_car, next_set))
           these_cars.

(** ** The detail page *)

(** One [li] of the key-specifications list. *)
Record SpecItem : Type := {
  (* the first [use] element below the item and its [xlink:href]
     attribute: [None] without a [use] element, [Some None] when the
     element has no such attribute *)
  icon : option (option string);
  (* the rendered text of the item *)
  spec_text : string
}.

(** What the extractor can see of one rendered detail page.  A list of
    [li] items with [span] children is a list of lists: one string per
    [span]. *)
Record DetailPage : Type := {
  (* text of the heading of class [advert-heading__title...] *)
  heading : option string;
  (* text of the element of class [advert-price__cash-price] *)
  cash_price : option string;
  (* the paragraph of class [seller-name...] and its first [a] child *)
  seller_name : option (option unit);
  (* the [li] items of the list of class [key-specifications] *)
  key_specifications : option (list SpecItem);
  (* the table of class [info-list.tech-specs__info-list]: per [li], the
     [innerHTML] of each [span] *)
  tech_specs : option (list (list string));
  (* the list of class [basic-check-m__check-list]: per [li], the text of
     each [span] *)
  check_list : option (list (list string))
}.

(** [check_exists_by_tag] and [check_exists_by_class]: [True] when the
    lookup finds an element, [False] when it raises
    [NoSuchElementException]. *)
Definition check_exists_by_tag {A} (found : option A) : bool :=
  match found with Some _ => true | None => false end.

Definition check_exists_by_class {A} (found : option A) : bool :=
  match found with Some _ => true | None => false end.

(** ** The detail extractor *)

Definition detail_url (next_car : string) : string :=
  BASE_URL +:+ "/classified/advert/" +:+ next_car.

(** The dict [car_specs] as first built, lines 322-329. *)
Definition car_specs_default : gmap string string :=
  <["year" := "Unknown"]>
  (<["body_style" := "Unknown"]>
  (<["mileage" := "Unknown"]>
  (<["engine_size" := "Unknown"]>
  (<["transmission" := "Unknown"]>
  (<["fuel_type" := "Unknown"]>
  (<["doors" := "Unknown"]> ∅)))))).

(** [if icon_type == marker: car_specs[field] = text] *)
Definition assign_if (icon_type marker field text : string)
    (car_specs : gmap string string) : gmap string string :=
  if decide (icon_type = marker) then <[field := text]> car_specs
  else car_specs.

(** The chain of seven [if] statements, lines 342-355. *)
Definition dispatch (icon_type text : string)
    (car_specs : gmap string string) : gmap string string :=
  let car_specs := assign_if icon_type "ks-manufactured-year" "year" text car_specs in
  let car_specs := assign_if icon_type "ks-body-type" "body_style" text car_specs in
  let car_specs := assign_if icon_type "ks-mileage" "mileage" text car_specs in
  let car_specs := assign_if icon_type "ks-engine-size" "engine_size" text car_specs in
  let car_specs := assign_if icon_type "ks-transmission" "transmission" text car_specs in
  let car_specs := assign_if icon_type "ks-fuel-type" "fuel_type" text car_specs in
  let car_specs := assign_if icon_type "ks-doors" "doors" text car_specs in
  car_specs.

(** The dispatch over a list of (marker, text) entries. *)
Definition dispatch_all (entries : list (string * string))
    (car_specs : gmap string string) : gmap string string :=
  foldl (fun acc e => dispatch e.1 e.2 acc) car_specs entries.

(** Lines 338-340: the marker of one item. *)
Definition icon_type_of (each_spec : SpecItem) : M string :=
  spec_icon ← orelse (icon each_spec) NoSuchElementException;
  icon_link ← orelse spec_icon AttributeError;
  index (split "#" icon_link) 1.

(** The [for each_spec in available_specs] loop. *)
Fixpoint read_specs (available_specs : list SpecItem)
    (car_specs : gmap string string) : M (gmap string string) :=
  match available_specs with
  | [] => mret car_specs
  | each_spec :: rest =>
      icon_type ← icon_type_of each_spec;
      read_specs rest (dispatch icon_type (spec_text each_spec) car_specs)
  end.

(** [d[k]] on a dict. *)
Definition getitem (d : gmap string string) (k : string) : M string :=
  orelse (d !! k) KeyError.

(** Lines 320-355: the key specifications, matched by icon type. *)
Definition read_key_specs (page : DetailPage) : M (gmap string string) :=
  let car_specs := car_specs_default in
  if check_exists_by_class (key_specifications page)
  then available_specs ← orelse (key_specifications page) NoSuchElementException;
       read_specs available_specs car_specs
  else mret car_specs.

(** Lines 357-366: the CO2 emission, last row of the tech-specs table. *)
Definition read_emission (page : DetailPage) : M string :=
  let next_emission := "Unknown" in
  if check_exists_by_class (tech_specs page)
  then tech_specs_items ← orelse (tech_specs page) NoSuchElementException;
       emissions_spans ← index_last tech_specs_items;
       index emissions_spans 1
  else mret next_emission.

(** Lines 368-388: the vehicle check list, in the order stolen, scrapped,
    write-off.  The result is (stolen, write-off, scrapped). *)
Definition read_check_list (page : DetailPage) : M (string * string * string) :=
  let next_was_stolen := "Unknown" in
  let next_was_write_off := "Unknown" in
  let next_was_scrapped := "Unknown" in
  if check_exists_by_class (check_list page)
  then vlist_items ← orelse (check_list page) NoSuchElementException;
       both_spans ← index vlist_items 0;
       next_was_stolen ← index both_spans 1;
       both_spans ← index vlist_items 1;
       next_was_scrapped ← index both_spans 1;
       both_spans ← index vlist_items 2;
       next_was_write_off ← index both_spans 1;
       mret (next_was_stolen, next_was_write_off, next_was_scrapped)
  else mret (next_was_stolen, next_was_write_off, next_was_scrapped).

Definition scrape_one_car (web : string -> option DetailPage)
    (next_car : string) : M Advertisement.t :=
  let next_ad := Advertisement.init in
  let next_url := detail_url next_car in
  browser ← open_browser web next_url;
  page ← orelse browser AttributeError;
  next_description ← orelse (heading page) NoSuchElementException;
  next_price ← orelse (cash_price page) NoSuchElementException;
  next_seller_para ← orelse (seller_name page) NoSuchElementException;
  let next_seller :=
    if check_exists_by_tag next_seller_para then "Dealer" else "Private" in
  car_specs ← read_key_specs page;
  next_emission ← read_emission page;
  '(next_was_stolen, next_was_write_off, next_was_scrapped) ←
    read_check_list page;
  (* lines 390-405: build the Advertisement *)
  let next_ad := Advertisement.set_hyperlink next_url next_ad in
  let next_ad := Advertisement.set_description next_description next_ad in
  let next_ad := Advertisement.set_seller_type next_seller next_ad in
  let next_ad := Advertisement.set_price next_price next_ad in
  v ← getitem car_specs "year";
  let next_ad := Advertisement.set_year v next_ad in
  v ← getitem car_specs "mileage";
  let next_ad := Advertisement.set_mileage v next_ad in
  v ← getitem car_specs "body_style";
  let next_ad := Advertisement.set_body_style v next_ad in
  let next_ad := Advertisement.set_co2emission next_emission next_ad in
  v ← getitem car_specs "doors";
  let next_ad := Advertisement.set_doors v next_ad in
  v ← getitem car_specs "transmission";
  let next_ad := Advertisement.set_transmission v next_ad in
  let next_ad := Advertisement.set_was_stolen next_was_stolen next_ad in
  let next_ad := Advertisement.set_was_write_off next_was_write_off next_ad in
  let next_ad := Advertisement.set_was_scrapped next_was_scrapped next_ad in
  v ← getitem car_specs "engine_size";
  let next_ad := Advertisement.set_engine_size v next_ad in
  v ← getitem car_specs "fuel_type";
  let next_ad := Advertisement.set_fuel_type v next_ad in
  clean_up browser;;
  mret next_ad.

(** ** The orchestrator *)

(** The inner loop of [scrape_all_cars] for one (make, model, id set)
    tuple.  A Python set is iterated in an order of its own (its hash
    order); [elements] is the order of the model, which need not be
    Python's.  The statements about this loop hold for any order: they
    speak of membership and of permutations only. *)
Definition scrape_one_type (web : string -> option DetailPage)
    (each_tuple : string * string * gset string) : M (list Advertisement.t) :=
  let next_make := each_tuple.1.1 in
  let next_model := each_tuple.1.2 in
  let car_set := each_tuple.2 in
  for_each (fun next_car =>
              next_ad ← scrape_one_car web next_car;
              let next_ad := Advertisement.set_make next_make next_ad in
              let next_ad := Advertisement.set_model next_model next_ad in
              mret next_ad)
           (elements car_set).

Definition scrape_all_cars (web : string -> option DetailPage)
    (these_cars : list (string * string * gset string))
  : M (list Advertisement.t) :=
  all_ads ← for_each (scrape_one_type web) these_cars;
  mret (concat all_ads).

(** * Vocabulary of the properties *)

(** Identifiers on the pages before page [k]. *)
Fixpoint seen_before (s : Site) (k : nat) : gset string :=
  match k with
  | O => ∅
  | S k' => seen_before s k' ∪ list_to_set (result_ids (s k'))
  end.

(** Identifiers on pages [0 .. n]. *)
Definition seen_upto (s : Site) (n : nat) : gset string := seen_before s (S n).

(** The browser actions of a harvest that starts reading at page [k] and
    stops after reading page [k + m], newest first. *)
Fixpoint harvest_events (k m : nat) : trace :=
  match m with
  | O => [EvRead k]
  | S m' => harvest_events (S k) m' ++ [EvClick k; EvRead k]
  end.

(** Page [n] is the first page at which the identifiers read so far reach
    [total_cars]; on every page before it the "next" arrow is there and
    works. *)
Definition stops_at (s : Site) (total_cars : Z) (n : nat) : Prop :=
  (total_cars <= Z.of_nat (size (seen_upto s n)))%Z ∧
  ∀ j, j < n →
    (Z.of_nat (size (seen_upto s j)) < total_cars)%Z ∧
    next_arrow (s j) = Some true.

(** Two sites that differ at most in their count headers. *)
Definition same_listing (s1 s2 : Site) : Prop :=
  ∀ n, result_ids (s1 n) = result_ids (s2 n) ∧
       next_arrow (s1 n) = next_arrow (s2 n).

(** The session a trace ends with is still open: reading from the newest
    event, an [EvOpen] comes before any [EvClose]. *)
Fixpoint session_live (tr : trace) : bool :=
  match tr with
  | [] => false
  | EvOpen _ :: _ => true
  | EvClose :: _ => false
  | _ :: tr' => session_live tr'
  end.

Definition clicks (tr : trace) : list nat :=
  omap (fun e => match e with EvClick j => Some j | _ => None end) tr.

Definition reads (tr : trace) : list nat :=
  omap (fun e => match e with EvRead j => Some j | _ => None end) tr.

(** Unfold the monad down to functions on traces. *)
Ltac run :=
  cbv beta iota zeta delta
    [mbind M_bind mret M_ret bind ret raise out_of_fuel emit orelse index
     index_last int getitem] in *.

(** [text.split(' ')[0]] *)
Definition first_word (text : string) : string :=
  match split " " text with
  | w :: _ => w
  | [] => ""
  end.

(** What is left of [search_one_car_type] after the loop: close the
    browser, return the set. *)
Definition finish (r : outcome (gset string * option Browser) * trace)
  : outcome (gset string) * trace :=
  match r with
  | (Returns (cars, Some _), tr) => (Returns cars, EvClose :: tr)
  | (Returns (cars, None), tr) => (Returns cars, tr)
  | (Raises e, tr) => (Raises e, tr)
  | (OutOfFuel, tr) => (OutOfFuel, tr)
  end.

(** The search URL of a query. *)
Definition query_url (next_car : CarTup) : string :=
  search_url (make next_car) (model next_car).

(** Some session was opened in the course of a trace. *)
Definition session_opened (tr : trace) : bool :=
  existsb (fun e => match e with EvOpen _ => true | _ => false end) tr.

(** A run that opened a session and returned has closed it; a run that
    raised has left open whatever session it had opened. *)
Definition closes_on_return {A} (r : outcome A * trace) : Prop :=
  match r with
  | (Returns _, tr) => session_opened tr = true ∧ session_live tr = false
  | (Raises _, tr) => session_live tr = session_opened tr
  | (OutOfFuel, _) => True
  end.

(** ** Example data *)

Definition result_page (header : option string) (ids : list string)
    (arrow : option bool) : SearchPage :=
  {| count_header := header; result_ids := ids; next_arrow := arrow |}.

(** A web that answers one URL. *)
Definition only {D} (url : string) (d : D) : string → option D :=
  fun u => if decide (u = url) then Some d else None.

(** No URL can be loaded. *)
Definition unreachable {D} : string → option D := fun _ => None.

Definition fiesta : CarTup :=
  {| make := "Ford"; model := "Fiesta"; total := "5" |}.

(** Two pages of three results that share the identifier ["C"]; the site
    itself reports 120 cars. *)
Definition fiesta_site : Site :=
  fun n =>
    match n with
    | 0 => result_page (Some "120 cars found") ["A"; "B"; "C"] (Some true)
    | 1 => result_page None ["C"; "D"; "E"] (Some true)
    | _ => result_page None [] None
    end.

Definition fiesta_web : string → option Site :=
  only (query_url fiesta) fiesta_site.

(** The same query with an expected count of zero. *)
Definition fiesta_none : CarTup :=
  {| make := "Ford"; model := "Fiesta"; total := "0" |}.

(** A single page with one result and no "next" arrow. *)
Definition single_site : Site :=
  fun _ => result_page (Some "1 car found") ["A"] None.

Definition single_web : string → option Site :=
  only (query_url fiesta) single_site.

(** ** The marker table of the specification *)

(** The fixed table: icon marker, field of [car_specs]. *)
Definition marker_table : list (string * string) :=
  [("ks-manufactured-year", "year");
   ("ks-body-type", "body_style");
   ("ks-mileage", "mileage");
   ("ks-engine-size", "engine_size");
   ("ks-transmission", "transmission");
   ("ks-fuel-type", "fuel_type");
   ("ks-doors", "doors")].

(** The texts of the entries that carry [marker], in the order of the
    entries. *)
Definition texts_of (marker : string) (entries : list (string * string))
  : list string :=
  (filter (fun e => e.1 = marker) entries).*2.

(** Last wins; ["Unknown"] when no entry carries the marker. *)
Definition last_text (marker : string) (entries : list (string * string))
  : string :=
  default "Unknown" (last (texts_of marker entries)).

(** ** What a detail page yields *)

(** The (marker, text) entry of a key-specification item whose icon can be
    read: it has a [use] element, the element has the attribute, and the
    attribute has a second [#]-separated segment. *)
Definition entry_of (each_spec : SpecItem) : option (string * string) :=
  spec_icon ← icon each_spec;
  icon_link ← spec_icon;
  icon_type ← split "#" icon_link !! 1;
  Some (icon_type, spec_text each_spec).

(** The entries of the key-specifications list: none when the list is
    absent, [None] when some item cannot be read. *)
Definition page_entries (page : DetailPage) : option (list (string * string)) :=
  match key_specifications page with
  | None => Some []
  | Some items => mapM entry_of items
  end.

(** The second span of the last row of the tech-specs table. *)
Definition page_emission (page : DetailPage) : option string :=
  match tech_specs page with
  | None => Some "Unknown"
  | Some items => spans ← last items; spans !! 1
  end.

(** The second span of item [i] of a list of items. *)
Definition second_span (items : list (list string)) (i : nat) : option string :=
  spans ← items !! i; spans !! 1.

(** The three history values as (stolen, write-off, scrapped). *)
Definition page_checks (page : DetailPage) : option (string * string * string) :=
  match check_list page with
  | None => Some ("Unknown", "Unknown", "Unknown")
  | Some items =>
      stolen ← second_span items 0;
      scrapped ← second_span items 1;
      write_off ← second_span items 2;
      Some (stolen, write_off, scrapped)
  end.

(** The record [scrape_one_car] returns, written out. *)
Definition advert_of (next_car next_description next_price : string)
    (next_seller_para : option unit) (entries : list (string * string))
    (next_emission : string) (checks : string * string * string)
  : Advertisement.t :=
  {| Advertisement.hyperlink := detail_url next_car;
     Advertisement.description := next_description;
     Advertisement.seller_type :=
       if check_exists_by_tag next_seller_para then "Dealer" else "Private";
     Advertisement.price := next_price;
     Advertisement.make := "";
     Advertisement.model := "";
     Advertisement.year := last_text "ks-manufactured-year" entries;
     Advertisement.mileage := last_text "ks-mileage" entries;
     Advertisement.body_style := last_text "ks-body-type" entries;
     Advertisement.co2emission := next_emission;
     Advertisement.doors := last_text "ks-doors" entries;
     Advertisement.transmission := last_text "ks-transmission" entries;
     Advertisement.was_stolen := checks.1.1;
     Advertisement.was_write_off := checks.1.2;
     Advertisement.was_scrapped := checks.2;
     Advertisement.engine_size := last_text "ks-engine-size" entries;
     Advertisement.fuel_type := last_text "ks-fuel-type" entries |}.

(** The whole of [scrape_one_car] on a page that was loaded. *)
Definition scrape_page (next_car : string) (page : DetailPage)
    (specs_exn : exn) : outcome Advertisement.t :=
  match heading page, cash_price page, seller_name page with
  | Some next_description, Some next_price, Some next_seller_para =>
      match page_entries page with
      | None => Raises specs_exn
      | Some entries =>
          match page_emission page, page_checks page with
          | Some next_emission, Some checks =>
              Returns (advert_of next_car next_description next_price
                         next_seller_para entries next_emission checks)
          | _, _ => Raises IndexError
          end
      end
  | _, _, _ => Raises NoSuchElementException
  end.

(** The vehicle check list cannot be read in full: one of the three items
    the extractor reads is missing or has fewer than two spans. *)
Definition check_list_unreadable (items : list (list string)) : Prop :=
  length items < 3 ∨
  ∃ i spans, i < 3 ∧ items !! i = Some spans ∧ length spans < 2.

Definition spec_item (icon_link text : string) : SpecItem :=
  {| icon := Some (Some icon_link); spec_text := text |}.

Definition advert_id : string := "201910012835451".

(** A dealer's page with two key specifications and neither a tech-specs
    table nor a vehicle check list. *)
Definition plain_page : DetailPage :=
  {| heading := Some "Ford Fiesta 1.0 Zetec";
     cash_price := Some "5,000";
     seller_name := Some (Some tt);
     key_specifications :=
       Some [spec_item "/sprite.svg#ks-doors" "5 doors";
             spec_item "/sprite.svg#ks-mileage" "40,000 miles"];
     tech_specs := None;
     check_list := None |}.

Definition plain_advert : Advertisement.t :=
  advert_of advert_id "Ford Fiesta 1.0 Zetec" "5,000" (Some tt)
    [("ks-doors", "5 doors"); ("ks-mileage", "40,000 miles")]
    "Unknown" ("Unknown", "Unknown", "Unknown").

(** A private seller's page whose check list has a fourth item without
    spans. *)
Definition long_check_page : DetailPage :=
  {| heading := Some "Ford Fiesta 1.0 Zetec";
     cash_price := Some "5,000";
     seller_name := Some None;
     key_specifications := None;
     tech_specs := None;
     check_list :=
       Some [["Stolen"; "Clear"]; ["Scrapped"; "Clear"];
             ["Written off"; "Recorded"]; []] |}.

Definition long_check_advert : Advertisement.t :=
  advert_of advert_id "Ford Fiesta 1.0 Zetec" "5,000" None []
    "Unknown" ("Clear", "Recorded", "Clear").

(** A page whose check list has two items only. *)
Definition short_check_page : DetailPage :=
  {| heading := Some "Ford Fiesta 1.0 Zetec";
     cash_price := Some "5,000";
     seller_name := Some None;
     key_specifications := None;
     tech_specs := None;
     check_list := Some [["Stolen"; "Clear"]; ["Scrapped"; "Clear"]] |}.

(** ** What the fields of an advertisement hold *)

Definition fields (ad : Advertisement.t) : list string :=
  [Advertisement.hyperlink ad; Advertisement.description ad;
   Advertisement.seller_type ad; Advertisement.price ad;
   Advertisement.make ad; Advertisement.model ad;
   Advertisement.year ad; Advertisement.mileage ad;
   Advertisement.body_style ad; Advertisement.co2emission ad;
   Advertisement.doors ad; Advertisement.transmission ad;
   Advertisement.was_stolen ad; Advertisement.was_write_off ad;
   Advertisement.was_scrapped ad; Advertisement.engine_size ad;
   Advertisement.fuel_type ad].

(** The sentinel, or a value that is not empty. *)
Definition sentinel_or_nonempty (v : string) : Prop :=
  v = "Unknown" ∨ v ≠ "".

(** The sentinel, or the text of an item of the key-specifications list. *)
Definition spec_value (page : DetailPage) (v : string) : Prop :=
  v = "Unknown" ∨
  ∃ items each_spec,
    key_specifications page = Some items ∧
    each_spec ∈ items ∧ spec_text each_spec = v.

(** The sentinel, or a span of a row of the tech-specs table. *)
Definition emission_value (page : DetailPage) (v : string) : Prop :=
  v = "Unknown" ∨
  ∃ items spans, tech_specs page = Some items ∧ spans ∈ items ∧ v ∈ spans.

(** The sentinel, or a span of an item of the vehicle check list. *)
Definition check_value (page : DetailPage) (v : string) : Prop :=
  v = "Unknown" ∨
  ∃ items spans, check_list page = Some items ∧ spans ∈ items ∧ v ∈ spans.

(** Where each field of an advertisement scraped from [page] for the
    identifier [next_car] comes from; make and model are the
    orchestrator's. *)
Definition scraped_from (next_car : string) (page : DetailPage)
    (ad : Advertisement.t) : Prop :=
  Advertisement.hyperlink ad = detail_url next_car ∧
  heading page = Some (Advertisement.description ad) ∧
  cash_price page = Some (Advertisement.price ad) ∧
  (Advertisement.seller_type ad = "Dealer" ∨
   Advertisement.seller_type ad = "Private") ∧
  Forall (spec_value page)
    [Advertisement.year ad; Advertisement.mileage ad;
     Advertisement.body_style ad; Advertisement.doors ad;
     Advertisement.transmission ad; Advertisement.engine_size ad;
     Advertisement.fuel_type ad] ∧
  emission_value page (Advertisement.co2emission ad) ∧
  Forall (check_value page)
    [Advertisement.was_stolen ad; Advertisement.was_write_off ad;
     Advertisement.was_scrapped ad].

(** A page whose heading is there but has no text. *)
Definition blank_page : DetailPage :=
  {| heading := Some "";
     cash_price := Some "5,000";
     seller_name := Some None;
     key_specifications := None;
     tech_specs := None;
     check_list := None |}.

Definition blank_advert : Advertisement.t :=
  Advertisement.set_model "Fiesta"
    (Advertisement.set_make "Ford"
       (advert_of advert_id "" "5,000" None [] "Unknown"
          ("Unknown", "Unknown", "Unknown"))).

(** * The rest of the script *)

(** ** [Advertisement.to_string] *)

Definition to_string (self : Advertisement.t) : string :=
  "Hyperlink: " +:+ Advertisement.hyperlink self +:+
  ", Description: " +:+ Advertisement.description self +:+ ", " +:+
  "Seller Type: " +:+ Advertisement.seller_type self +:+
  ", Price: " +:+ Advertisement.price self +:+ ", " +:+
  "Make: " +:+ Advertisement.make self +:+
  ", Model: " +:+ Advertisement.model self +:+
  ", Year: " +:+ Advertisement.year self +:+ ", " +:+
  "Mileage: " +:+ Advertisement.mileage self +:+
  ", Body Style: " +:+ Advertisement.body_style self +:+ ", " +:+
  "Co2 Emissions: " +:+ Advertisement.co2emission self +:+
  ", Doors: " +:+ Advertisement.doors self +:+ ", " +:+
  "Transmission: " +:+ Advertisement.transmission self +:+
  ", Was Stolen: " +:+ Advertisement.was_stolen self +:+ ", " +:+
  "Was Write Off: " +:+ Advertisement.was_write_off self +:+ ", " +:+
  "Was Scrapped: " +:+ Advertisement.was_scrapped self +:+
  ", Engine Size: " +:+ Advertisement.engine_size self +:+ ", " +:+
  "Fuel Type: " +:+ Advertisement.fuel_type self.

(** ** [read_from_csv] and [main] *)

Definition CSV_FILE : string := "atuk_makes_and_models.csv".

(** Exceptions that reach the top level: the two that only the start-up
    code can raise, and those of the browser code. *)
Inductive top_exn : Type :=
| StopIteration
| TypeError
| Uncaught (e : exn).

Inductive top_outcome (A : Type) : Type :=
| Done (a : A)
| Crashed (e : top_exn)
| Unfinished.

Arguments Done {A} a.
Arguments Crashed {A} e.
Arguments Unfinished {A}.

(** The files the script can open: [None] when [open] raises [IOError],
    otherwise the rows [csv.reader] yields, each a list of fields. *)
Definition Files : Type := string → option (list (list string)).

(** [CarTup._make(fields)]: [None] stands for the [TypeError] raised when
    the number of fields is not three. *)
Definition CarTup_make (fields : list string) : option CarTup :=
  match fields with
  | [a; b; c] => Some {| make := a; model := b; total := c |}
  | _ => None
  end.

(** [read_from_csv]: [inr None] is the [None] returned from the
    [except IOError] handler; [inl e] is an exception that is not caught. *)
Definition read_from_csv (fs : Files) (next_csv : string)
  : top_exn + option (list CarTup) :=
  match fs next_csv with
  | None => inr None
  | Some rows =>
      match rows with
      | [] => inl StopIteration            (* next(csv_reader) *)
      | _ :: recs =>
          match mapM (fun rec => CarTup_make (take 3 rec)) recs with
          | Some cars_in => inr (Some cars_in)
          | None => inl TypeError
          end
      end
  end.

(** [main]; [Done line] is the line it prints. *)
Definition main (fuel : nat) (fs : Files) (web : string → option Site)
    (pages : string → option DetailPage) : top_outcome string * trace :=
  match read_from_csv fs CSV_FILE with
  | inl e => (Crashed e, [])
  | inr None => (Crashed TypeError, [])    (* None[9:10] *)
  | inr (Some cars_in) =>
      let body : M string :=
        cars_found ← search_all_car_types fuel web (take 1 (drop 9 cars_in));
        ads_list ← scrape_all_cars pages cars_found;
        ad ← index ads_list 1;
        mret (to_string ad) in
      match body [] with
      | (Returns line, tr) => (Done line, tr)
      | (Raises e, tr) => (Crashed (Uncaught e), tr)
      | (OutOfFuel, tr) => (Unfinished, tr)
      end
  end.

(** * More vocabulary *)

(** The browser actions of [m] rounds of the harvest loop that start at
    page [k] and all go on to the next page, newest first. *)
Fixpoint advance_events (k m : nat) : trace :=
  match m with
  | O => []
  | S m' => advance_events (S k) m' ++ [EvClick k; EvRead k]
  end.

(** Every page of the site stays below the expected count and has a
    working "next" arrow. *)
Definition endless (s : Site) (total_cars : Z) : Prop :=
  ∀ j, (Z.of_nat (size (seen_upto s j)) < total_cars)%Z ∧
       next_arrow (s j) = Some true.

(** The pages before page [n] stay below the expected count and have a
    working "next" arrow, and page [n] is still below the expected count. *)
Definition short_at (s : Site) (total_cars : Z) (n : nat) : Prop :=
  (∀ j, j < n →
     (Z.of_nat (size (seen_upto s j)) < total_cars)%Z ∧
     next_arrow (s j) = Some true) ∧
  (Z.of_nat (size (seen_upto s n)) < total_cars)%Z.

(** The character occurs in the string. *)
Fixpoint occurs (c : ascii) (s : string) : Prop :=
  match s with
  | EmptyString => False
  | String c' s' => c' = c ∨ occurs c s'
  end.

(** The sessions of a trace follow one another: a page is opened only
    when no session is live, read and clicked only in a live session, and
    only a live session is closed.  [Some live] tells whether a session is
    live at the end; [None] marks a trace that breaks the rule. *)
Fixpoint session_state (tr : trace) : option bool :=
  match tr with
  | [] => Some false
  | e :: tr' =>
      match session_state tr', e with
      | Some false, EvOpen _ => Some true
      | Some false, EvOpenFailed _ => Some false
      | Some true, EvRead _ => Some true
      | Some true, EvClick _ => Some true
      | Some true, EvClose => Some false
      | _, _ => None
      end
  end.

(** The URLs of the sessions of a trace, newest first. *)
Definition opens (tr : trace) : list string :=
  omap (fun e => match e with EvOpen url => Some url | _ => None end) tr.

(** The exception the icon of a key-specification item raises, if any. *)
Definition item_exn (each_spec : SpecItem) : option exn :=
  match icon each_spec with
  | None => Some NoSuchElementException
  | Some None => Some AttributeError
  | Some (Some icon_link) =>
      match split "#" icon_link !! 1 with
      | Some _ => None
      | None => Some IndexError
      end
  end.

(** Make, model and hyperlink of an advertisement. *)
Definition stamp (ad : Advertisement.t) : string * string * string :=
  (Advertisement.make ad, Advertisement.model ad, Advertisement.hyperlink ad).

(** The stamps [scrape_all_cars] produces for one tuple. *)
Definition stamps_of (each_tuple : string * string * gset string)
  : list (string * string * string) :=
  (fun next_car => (each_tuple.1.1, each_tuple.1.2, detail_url next_car))
    <$> elements each_tuple.2.

(** ** More example data *)

(** A CSV file with a header and eleven rows; row ten is the Fiesta. *)
Definition sample_rows : list (list string) :=
  ["make"; "model"; "total"] ::
  replicate 9 ["Audi"; "A3"; "7"; "spare"] ++
  [["Ford"; "Fiesta"; "5"]; ["Ford"; "Focus"; "3"]].

Definition sample_files : Files := only CSV_FILE sample_rows.

(** A page with every section. *)
Definition full_page : DetailPage :=
  {| heading := Some "Ford Fiesta 1.0 Zetec";
     cash_price := Some "5,000";
     seller_name := Some (Some tt);
     key_specifications :=
       Some [spec_item "/sprite.svg#ks-doors" "5 doors";
             spec_item "/sprite.svg#ks-doors#x" "3 doors"];
     tech_specs :=
       Some [["Fuel consumption"; "65.7mpg"];
             ["CO2 emissions"; "99g/km"; "band A"]];
     check_list :=
       Some [["Stolen"; "Clear"]; ["Scrapped"; "Recorded"];
             ["Written off"; "Clear"]] |}.

(** A page one of whose key-specification items has no icon. *)
Definition broken_spec_page : DetailPage :=
  {| heading := Some "Ford Fiesta 1.0 Zetec";
     cash_price := Some "5,000";
     seller_name := Some None;
     key_specifications :=
       Some [spec_item "/sprite.svg#ks-doors" "5 doors";
             {| icon := None; spec_text := "Petrol" |}];
     tech_specs := None;
     check_list := None |}.

(** A page without a price. *)
Definition no_price_page : DetailPage :=
  {| heading := Some "Ford Fiesta 1.0 Zetec";
     cash_price := None;
     seller_name := Some None;
     key_specifications := None;
     tech_specs := None;
     check_list := None |}.

(** A site that shows the same result on every page. *)
Definition looping_site : Site :=
  fun _ => result_page (Some "9 cars found") ["A"] (Some true).

(** A site whose "next" arrow does not go stale. *)
Definition stuck_site : Site :=
  fun _ => result_page (Some "9 cars found") ["A"] (Some false).

(** A site that writes its total with a thousands separator. *)
Definition busy_site : Site :=
  fun _ => result_page (Some "1,234 cars found") ["A"; "B"; "C"; "D"; "E"] None.

(** Every detail URL leads to the plain page. *)
Definition plain_pages : string → option DetailPage :=
  fun _ => Some plain_page.

(** Everything the extractor looks up on the page can be read. *)
Definition extractable (page : DetailPage) : Prop :=
  is_Some (heading page) ∧ is_Some (cash_price page) ∧
  is_Some (seller_name page) ∧ is_Some (page_entries page) ∧
  is_Some (page_emission page) ∧ is_Some (page_checks page).

(** The two advertisements scraped for the identifiers A and B. *)
Definition fiesta_ads : list Advertisement.t :=
  (fun next_car =>
     Advertisement.set_model "Fiesta"
       (Advertisement.set_make "Ford"
          (advert_of next_car "Ford Fiesta 1.0 Zetec" "5,000" (Some tt)
             [("ks-doors", "5 doors"); ("ks-mileage", "40,000 miles")]
             "Unknown" ("Unknown", "Unknown", "Unknown"))))
    <$> elements ({["A"; "B"]} : gset string).

(** A second query, answered by the single page. *)
Definition focus : CarTup :=
  {| make := "Ford"; model := "Focus"; total := "1" |}.

(** A web that answers the search of both queries. *)
Definition two_query_web : string → option Site :=
  fun u =>
    if decide (u = query_url fiesta) then Some fiesta_site
    else if decide (u = query_url focus) then Some single_site
    else None.

(** The advertisement scraped for the identifier C of the second tuple. *)
Definition focus_ads : list Advertisement.t :=
  (fun next_car =>
     Advertisement.set_model "Focus"
       (Advertisement.set_make "Ford"
          (advert_of next_car "Ford Fiesta 1.0 Zetec" "5,000" (Some tt)
             [("ks-doors", "5 doors"); ("ks-mileage", "40,000 miles")]
             "Unknown" ("Unknown", "Unknown", "Unknown"))))
    <$> elements ({["C"]} : gset string).


(** * Properties *)

(** ** The harvest loop *)

Lemma add_all_union (l : list string) (acc : gset string) :
  add_all l acc = acc ∪ list_to_set l.
Proof.
  unfold add_all. revert acc.
  induction l as [|x l IH]; intros acc; simpl.
  - symmetry. apply (right_id_L ∅ (∪)).
  - rewrite IH. rewrite (comm_L (∪) {[x]} acc). symmetry. apply (assoc_L (∪)).
Qed.

Lemma harvest_loop_step (fuel : nat) (total_cars : Z) (b : Browser)
    (acc : gset string) (tr : trace) :
  harvest_loop (S fuel) total_cars (Some b) acc tr =
  let acc' := add_all (result_ids (current b)) acc in
  let tr1 := EvRead (page_no b) :: tr in
  if (total_cars <=? Z.of_nat (size acc'))%Z
  then (Returns (acc', Some b), tr1)
  else match next_arrow (current b) with
       | None => (Raises NoSuchElementException, tr1)
       | Some false => (Raises TimeoutException, EvClick (page_no b) :: tr1)
       | Some true =>
           harvest_loop fuel total_cars
             (Some {| loaded := loaded b; page_no := S (page_no b) |})
             acc' (EvClick (page_no b) :: tr1)
       end.
Proof.
  cbn [harvest_loop]. unfold find_results, next_page. run.
  destruct (total_cars <=? _)%Z; [reflexivity|].
  destruct (next_arrow (current b)) as [[|]|]; reflexivity.
Qed.

Lemma harvest_loop_sound (fuel : nat) :
  ∀ total_cars s k tr cars b' tr',
    harvest_loop fuel total_cars (Some {| loaded := s; page_no := k |})
      (seen_before s k) tr = (Returns (cars, b'), tr') →
    ∃ m, m < fuel ∧
         (total_cars <= Z.of_nat (size (seen_upto s (k + m))))%Z ∧
         (∀ j, k ≤ j < k + m →
            (Z.of_nat (size (seen_upto s j)) < total_cars)%Z ∧
            next_arrow (s j) = Some true) ∧
         cars = seen_upto s (k + m) ∧
         b' = Some {| loaded := s; page_no := k + m |} ∧
         tr' = harvest_events k m ++ tr.
Proof.
  induction fuel as [|fuel IH]; intros total_cars s k tr cars b' tr' H.
  - discriminate H.
  - rewrite harvest_loop_step in H. cbn in H.
    unfold current in H. cbn in H. rewrite add_all_union in H.
    change (seen_before s k ∪ list_to_set (result_ids (s k)))
      with (seen_upto s k) in H.
    destruct (total_cars <=? Z.of_nat (size (seen_upto s k)))%Z eqn:Hle.
    + inversion H; subst. exists 0. rewrite Nat.add_0_r.
      repeat split; try reflexivity; try lia.
    + destruct (next_arrow (s k)) as [[|]|] eqn:Harrow; try discriminate H.
      apply IH in H as (m & Hm & Hstop & Hbefore & -> & -> & ->).
      exists (S m). replace (k + S m) with (S k + m) by lia.
      repeat split; try assumption; try lia.
      * destruct (decide (j = k)) as [->|Hne]; [lia|].
        apply Hbefore. lia.
      * destruct (decide (j = k)) as [->|Hne]; [assumption|].
        apply Hbefore. lia.
      * cbn [harvest_events]. rewrite <- app_assoc. reflexivity.
Qed.

Lemma harvest_loop_complete (m : nat) :
  ∀ fuel total_cars s k tr,
    m < fuel →
    (total_cars <= Z.of_nat (size (seen_upto s (k + m))))%Z →
    (∀ j, k ≤ j < k + m →
       (Z.of_nat (size (seen_upto s j)) < total_cars)%Z ∧
       next_arrow (s j) = Some true) →
    harvest_loop fuel total_cars (Some {| loaded := s; page_no := k |})
      (seen_before s k) tr =
    (Returns (seen_upto s (k + m),
              Some {| loaded := s; page_no := k + m |}),
     harvest_events k m ++ tr).
Proof.
  induction m as [|m IH]; intros fuel total_cars s k tr Hfuel Hstop Hbefore;
    (destruct fuel as [|fuel]; [lia|]);
    rewrite harvest_loop_step; cbn; unfold current; cbn;
    rewrite add_all_union;
    change (seen_before s k ∪ list_to_set (result_ids (s k)))
      with (seen_upto s k).
  - rewrite Nat.add_0_r in *.
    apply Z.leb_le in Hstop. rewrite Hstop. reflexivity.
  - destruct (Hbefore k ltac:(lia)) as [Hlt Harrow].
    apply Z.leb_gt in Hlt. rewrite Hlt, Harrow.
    replace (k + S m) with (S k + m) in * by lia.
    rewrite (IH fuel total_cars s (S k)); try lia; try assumption.
    + rewrite <- app_assoc. reflexivity.
    + intros j Hj. apply Hbefore. lia.
Qed.

Lemma clicks_app (t1 t2 : trace) : clicks (t1 ++ t2) = clicks t1 ++ clicks t2.
Proof. apply omap_app. Qed.

Lemma reads_app (t1 t2 : trace) : reads (t1 ++ t2) = reads t1 ++ reads t2.
Proof. apply omap_app. Qed.

Lemma clicks_harvest_events (m : nat) :
  ∀ k, clicks (harvest_events k m) = rev (seq k m).
Proof.
  induction m as [|m IH]; intros k; [reflexivity|].
  cbn [harvest_events seq rev]. rewrite clicks_app, IH. reflexivity.
Qed.

Lemma reads_harvest_events (m : nat) :
  ∀ k, reads (harvest_events k m) = rev (seq k (S m)).
Proof.
  induction m as [|m IH]; intros k; [reflexivity|].
  cbn [harvest_events]. rewrite reads_app, IH. reflexivity.
Qed.

Lemma split_first_word (text : string) :
  split " " text !! 0 = Some (first_word text).
Proof.
  unfold first_word.
  destruct text as [|c text]; [reflexivity|]. cbn [split].
  destruct (Ascii.eqb c " "); [reflexivity|].
  destruct (split " " text); reflexivity.
Qed.

(** Once the session is open and the count header has been read and
    parsed, the harvest is the loop followed by [clean_up]. *)
Lemma search_one_car_type_opened (fuel : nat) (web : string → option Site)
    (next_car : CarTup) (s : Site) (total_cars actual_total : Z)
    (header : string) (tr : trace) :
  py_int (total next_car) = Some total_cars →
  web (search_url (make next_car) (model next_car)) = Some s →
  count_header (s 0) = Some header →
  py_int (first_word header) = Some actual_total →
  search_one_car_type fuel web next_car tr =
  finish (harvest_loop fuel total_cars (Some (fresh s)) ∅
            (EvOpen (search_url (make next_car) (model next_car)) :: tr)).
Proof.
  intros Htotal Hweb Hheader Hactual.
  unfold search_one_car_type, open_browser, clean_up. run.
  rewrite Htotal, Hweb. cbn. unfold current. cbn.
  rewrite Hheader, split_first_word, Hactual.
  destruct (harvest_loop _ _ _ _ _) as [[[cars [b|]]|e|] tr']; reflexivity.
Qed.

Lemma harvest_loop_same_listing (fuel : nat) :
  ∀ total_cars s1 s2 k acc tr,
    same_listing s1 s2 →
    finish (harvest_loop fuel total_cars
              (Some {| loaded := s1; page_no := k |}) acc tr) =
    finish (harvest_loop fuel total_cars
              (Some {| loaded := s2; page_no := k |}) acc tr).
Proof.
  induction fuel as [|fuel IH]; intros total_cars s1 s2 k acc tr Hsame;
    [reflexivity|].
  rewrite !harvest_loop_step. cbn. unfold current. cbn.
  destruct (Hsame k) as [-> ->].
  destruct (total_cars <=? _)%Z; [reflexivity|].
  destruct (next_arrow (s2 k)) as [[|]|]; try reflexivity.
  apply IH, Hsame.
Qed.

(** C1.  Take a query whose session opens and whose count header reads and
    parses.  The harvest returns exactly when some page [n] (within the step
    bound) is the first at which the identifiers read so far number at
    least the query's own expected count; it then returns the identifiers
    of pages [0..n], having read each of those pages once and clicked
    "next" on pages [0..n-1] only, so never after the read that met the
    threshold.  The number the site reports plays no part: a site with the
    same listing and any other parseable count header gives the same
    outcome. *)
Theorem harvest_stops_at_expected_count (fuel : nat)
    (web : string → option Site) (next_car : CarTup) (s : Site)
    (total_cars actual_total : Z) (header : string) (tr : trace) :
  py_int (total next_car) = Some total_cars →
  web (query_url next_car) = Some s →
  count_header (s 0) = Some header →
  py_int (first_word header) = Some actual_total →
  (∀ cars tr',
     search_one_car_type fuel web next_car tr = (Returns cars, tr') ↔
     ∃ n new,
       n < fuel ∧ stops_at s total_cars n ∧
       cars = seen_upto s n ∧
       tr' = EvClose :: new ++ EvOpen (query_url next_car) :: tr ∧
       new = harvest_events 0 n ∧
       clicks new = rev (seq 0 n) ∧
       reads new = rev (seq 0 (S n))) ∧
  (∀ web' s' header' actual_total',
     web' (query_url next_car) = Some s' →
     same_listing s s' →
     count_header (s' 0) = Some header' →
     py_int (first_word header') = Some actual_total' →
     search_one_car_type fuel web' next_car tr =
     search_one_car_type fuel web next_car tr).
Proof.
  intros Htotal Hweb Hheader Hactual. unfold query_url in *. split.
  - intros cars tr'.
    rewrite (search_one_car_type_opened fuel web next_car s total_cars
               actual_total header tr Htotal Hweb Hheader Hactual).
    split.
    + intros H.
      destruct (harvest_loop _ _ _ _ _) as [[[cars0 b]|e|] tr0] eqn:Hloop;
        try (cbn in H; discriminate H).
      apply (harvest_loop_sound fuel total_cars s 0) in Hloop
        as (n & Hn & Hstop & Hbefore & -> & -> & ->).
      cbn in H. inversion H; subst. exists n, (harvest_events 0 n).
      repeat split; try reflexivity; try assumption.
      * apply Hbefore. lia.
      * apply Hbefore. lia.
      * apply clicks_harvest_events.
      * apply reads_harvest_events.
    + intros (n & new & Hn & [Hstop Hbefore] & -> & -> & -> & _ & _).
      unfold fresh.
      assert (Hpages : ∀ j, 0 ≤ j < 0 + n →
                (Z.of_nat (size (seen_upto s j)) < total_cars)%Z ∧
                next_arrow (s j) = Some true)
        by (intros j Hj; apply Hbefore; lia).
      pose proof (harvest_loop_complete n fuel total_cars s 0
                    (EvOpen (search_url (make next_car) (model next_car)) :: tr)
                    Hn Hstop Hpages) as Hrun.
      cbn [seen_before Nat.add] in Hrun. rewrite Hrun. reflexivity.
  - intros web' s' header' actual_total' Hweb' Hsame Hheader' Hactual'.
    rewrite (search_one_car_type_opened fuel web next_car s total_cars
               actual_total header tr Htotal Hweb Hheader Hactual).
    rewrite (search_one_car_type_opened fuel web' next_car s' total_cars
               actual_total' header' tr Htotal Hweb' Hheader' Hactual').
    symmetry. apply harvest_loop_same_listing, Hsame.
Qed.

Lemma harvest_stops_at_expected_count_witness :
  py_int (total fiesta) = Some 5%Z ∧
  fiesta_web (query_url fiesta) = Some fiesta_site ∧
  count_header (fiesta_site 0) = Some "120 cars found" ∧
  py_int (first_word "120 cars found") = Some 120%Z ∧
  (∀ cars tr',
     search_one_car_type 4 fiesta_web fiesta [] = (Returns cars, tr') ↔
     ∃ n new,
       n < 4 ∧ stops_at fiesta_site 5 n ∧
       cars = seen_upto fiesta_site n ∧
       tr' = EvClose :: new ++ EvOpen (query_url fiesta) :: [] ∧
       new = harvest_events 0 n ∧
       clicks new = rev (seq 0 n) ∧
       reads new = rev (seq 0 (S n))) ∧
  (∀ web' s' header' actual_total',
     web' (query_url fiesta) = Some s' →
     same_listing fiesta_site s' →
     count_header (s' 0) = Some header' →
     py_int (first_word header') = Some actual_total' →
     search_one_car_type 4 web' fiesta [] =
     search_one_car_type 4 fiesta_web fiesta []).
Proof.
  split; [reflexivity|]. split; [reflexivity|]. split; [reflexivity|].
  split; [reflexivity|].
  apply (harvest_stops_at_expected_count 4 fiesta_web fiesta fiesta_site
           5 120 "120 cars found" []); reflexivity.
Defined.

(** C7.  The query ("Ford", "Fiesta", 5) on a site whose first page shows
    A, B, C and whose second page shows C, D, E (whatever total the site
    itself reports) harvests exactly {A, B, C, D, E}: the repeated C counts
    once, page 0 and page 1 are read, "next" is clicked once, and no third
    page is asked for. *)
Theorem fiesta_two_pages (fuel : nat) (web : string → option Site)
    (s : Site) (header : string) (actual_total : Z) (tr : trace) :
  web (query_url fiesta) = Some s →
  count_header (s 0) = Some header →
  py_int (first_word header) = Some actual_total →
  list_to_set (result_ids (s 0)) =@{gset string} {["A"; "B"; "C"]} →
  next_arrow (s 0) = Some true →
  list_to_set (result_ids (s 1)) =@{gset string} {["C"; "D"; "E"]} →
  (2 ≤ fuel)%nat →
  search_one_car_type fuel web fiesta tr =
  (Returns {["A"; "B"; "C"; "D"; "E"]},
   [EvClose; EvRead 1; EvClick 0; EvRead 0; EvOpen (query_url fiesta)] ++ tr).
Proof.
  intros Hweb Hheader Hactual Hpage0 Harrow Hpage1 Hfuel.
  rewrite (search_one_car_type_opened fuel web fiesta s 5 actual_total
             header tr eq_refl Hweb Hheader Hactual).
  assert (Hseen0 : seen_upto s 0 = {["A"; "B"; "C"]}).
  { unfold seen_upto. cbn [seen_before]. rewrite Hpage0.
    apply (left_id_L ∅ (∪)). }
  assert (Hseen1 : seen_upto s 1 = {["A"; "B"; "C"; "D"; "E"]}).
  { unfold seen_upto in *. cbn [seen_before] in *.
    rewrite Hseen0, Hpage1. reflexivity. }
  pose proof (harvest_loop_complete 1 fuel 5 s 0
                (EvOpen (query_url fiesta) :: tr)) as Hrun.
  cbn [seen_before Nat.add] in Hrun. unfold fresh.
  change (search_url (make fiesta) (model fiesta)) with (query_url fiesta).
  rewrite Hrun.
  - rewrite Hseen1. reflexivity.
  - lia.
  - rewrite Hseen1. vm_compute. discriminate.
  - intros j Hj. assert (j = 0) as -> by lia.
    rewrite Hseen0. split; [reflexivity | exact Harrow].
Qed.

Lemma fiesta_two_pages_witness :
  fiesta_web (query_url fiesta) = Some fiesta_site ∧
  count_header (fiesta_site 0) = Some "120 cars found" ∧
  py_int (first_word "120 cars found") = Some 120%Z ∧
  list_to_set (result_ids (fiesta_site 0)) =@{gset string} {["A"; "B"; "C"]} ∧
  next_arrow (fiesta_site 0) = Some true ∧
  list_to_set (result_ids (fiesta_site 1)) =@{gset string} {["C"; "D"; "E"]} ∧
  (2 ≤ 2)%nat ∧
  search_one_car_type 2 fiesta_web fiesta [] =
  (Returns {["A"; "B"; "C"; "D"; "E"]},
   [EvClose; EvRead 1; EvClick 0; EvRead 0; EvOpen (query_url fiesta)] ++ []).
Proof.
  repeat (split; [reflexivity || lia|]).
  apply (fiesta_two_pages 2 fiesta_web fiesta_site "120 cars found" 120 []);
    reflexivity || lia.
Defined.

(** C5, as stated, fails: with an expected count of zero the harvest still
    reads the first page and returns the identifier it finds there. *)
Lemma zero_count_returns_first_page :
  py_int (total fiesta_none) = Some 0%Z ∧
  search_one_car_type 4 single_web fiesta_none [] =
    (Returns {["A"]}, [EvClose; EvRead 0; EvOpen (query_url fiesta_none)]) ∧
  ({["A"]} : gset string) ≠ ∅.
Proof.
  split; [reflexivity|]. split; [reflexivity|].
  intros H. apply (f_equal size) in H. vm_compute in H. discriminate H.
Qed.

(** C5, amended.  For a query with an expected count of zero whose session
    opens and whose count header reads and parses, the harvest reads the
    first page once, never clicks "next", closes the session and returns
    exactly the identifiers shown on that page: the empty set when, and
    only when, the page shows no result. *)
Theorem zero_count_reads_one_page (fuel : nat) (web : string → option Site)
    (next_car : CarTup) (s : Site) (header : string) (actual_total : Z)
    (tr : trace) :
  py_int (total next_car) = Some 0%Z →
  web (query_url next_car) = Some s →
  count_header (s 0) = Some header →
  py_int (first_word header) = Some actual_total →
  (1 ≤ fuel)%nat →
  search_one_car_type fuel web next_car tr =
    (Returns (list_to_set (result_ids (s 0))),
     [EvClose; EvRead 0; EvOpen (query_url next_car)] ++ tr) ∧
  (list_to_set (result_ids (s 0)) =@{gset string} ∅ ↔ result_ids (s 0) = []).
Proof.
  intros Htotal Hweb Hheader Hactual Hfuel. split.
  - rewrite (search_one_car_type_opened fuel web next_car s 0 actual_total
               header tr Htotal Hweb Hheader Hactual).
    destruct fuel as [|fuel]; [lia|].
    rewrite harvest_loop_step. cbn. unfold current. cbn.
    rewrite add_all_union, (left_id_L ∅ (∪)).
    destruct (0 <=? Z.of_nat (size _))%Z eqn:Hle; [reflexivity|].
    apply Z.leb_gt in Hle. lia.
  - split.
    + intros Hempty. destruct (result_ids (s 0)) as [|x l]; [reflexivity|].
      exfalso. apply (not_elem_of_empty (C := gset string) x).
      rewrite <- Hempty. apply elem_of_list_to_set. left.
    + intros ->. reflexivity.
Qed.

Lemma zero_count_reads_one_page_witness :
  py_int (total fiesta_none) = Some 0%Z ∧
  single_web (query_url fiesta_none) = Some single_site ∧
  count_header (single_site 0) = Some "1 car found" ∧
  py_int (first_word "1 car found") = Some 1%Z ∧
  (1 ≤ 1)%nat ∧
  search_one_car_type 1 single_web fiesta_none [] =
    (Returns (list_to_set (result_ids (single_site 0))),
     [EvClose; EvRead 0; EvOpen (query_url fiesta_none)] ++ []) ∧
  (list_to_set (result_ids (single_site 0)) =@{gset string} ∅ ↔
   result_ids (single_site 0) = []).
Proof.
  repeat (split; [reflexivity || lia|]).
  apply (zero_count_reads_one_page 1 single_web fiesta_none single_site
           "1 car found" 1 []); reflexivity || lia.
Defined.

(** The guard inside the loop: without a browser the loop reads nothing,
    and returns only if nothing was asked for. *)
Lemma harvest_loop_no_browser (fuel : nat) (total_cars : Z)
    (acc : gset string) (tr : trace) :
  harvest_loop (S fuel) total_cars None acc tr =
  if (total_cars <=? Z.of_nat (size acc))%Z
  then (Returns (acc, None), tr)
  else (Raises AttributeError, tr).
Proof.
  cbn [harvest_loop]. run.
  destruct (total_cars <=? _)%Z; reflexivity.
Qed.

(** When the page cannot be loaded, [open_browser] returns [None] and the
    lookup of the count header, which comes before the guarded loop, is
    made on [None]. *)
Lemma search_one_car_type_unopened (fuel : nat) (web : string → option Site)
    (next_car : CarTup) (total_cars : Z) (tr : trace) :
  py_int (total next_car) = Some total_cars →
  web (query_url next_car) = None →
  search_one_car_type fuel web next_car tr =
  (Raises AttributeError, EvOpenFailed (query_url next_car) :: tr).
Proof.
  intros Htotal Hweb. unfold query_url in *.
  unfold search_one_car_type, open_browser. run.
  rewrite Htotal, Hweb. reflexivity.
Qed.

(** C2.  The query ("Ford", "Fiesta", 5) on a web where the search page
    cannot be loaded: the harvest raises [AttributeError] instead of
    returning the empty set. *)
Theorem open_failure_raises :
  search_one_car_type 4 unreachable fiesta [] =
  (Raises AttributeError, [EvOpenFailed (query_url fiesta)]).
Proof. reflexivity. Qed.

Lemma harvest_loop_session (fuel : nat) :
  ∀ total_cars b acc tr r tr',
    harvest_loop fuel total_cars (Some b) acc tr = (r, tr') →
    session_live tr' = session_live tr ∧
    session_opened tr' = session_opened tr ∧
    ∀ cars b', r = Returns (cars, b') → is_Some b'.
Proof.
  induction fuel as [|fuel IH]; intros total_cars b acc tr r tr' H.
  - inversion H; subst. repeat split. intros ? ? [=].
  - rewrite harvest_loop_step in H. cbn zeta in H.
    destruct (total_cars <=? _)%Z.
    + inversion H; subst. repeat split. intros ? ? [= <- <-]. eauto.
    + destruct (next_arrow (current b)) as [[|]|].
      * apply IH in H as (-> & -> & Hb). repeat split. exact Hb.
      * inversion H; subst. repeat split. intros ? ? [=].
      * inversion H; subst. repeat split. intros ? ? [=].
Qed.

Lemma search_one_car_type_session (fuel : nat) (web : string → option Site)
    (next_car : CarTup) :
  closes_on_return (search_one_car_type fuel web next_car []).
Proof.
  destruct (py_int (total next_car)) as [total_cars|] eqn:Htotal.
  2: { unfold search_one_car_type. run. rewrite Htotal. reflexivity. }
  destruct (web (query_url next_car)) as [s|] eqn:Hweb.
  2: { rewrite (search_one_car_type_unopened _ _ _ _ _ Htotal Hweb).
       reflexivity. }
  destruct (count_header (s 0)) as [header|] eqn:Hheader.
  2: { unfold query_url in Hweb.
       unfold search_one_car_type, open_browser. run.
       rewrite Htotal, Hweb. cbn. unfold current. cbn.
       rewrite Hheader. reflexivity. }
  destruct (py_int (first_word header)) as [actual_total|] eqn:Hactual.
  2: { unfold query_url in Hweb.
       unfold search_one_car_type, open_browser. run.
       rewrite Htotal, Hweb. cbn. unfold current. cbn.
       rewrite Hheader, split_first_word, Hactual. reflexivity. }
  rewrite (search_one_car_type_opened fuel web next_car s total_cars
             actual_total header [] Htotal Hweb Hheader Hactual).
  destruct (harvest_loop _ _ _ _ _) as [r tr'] eqn:Hloop.
  apply harvest_loop_session in Hloop as (Hlive & Hopened & Hb).
  cbn in Hlive, Hopened.
  destruct r as [[cars b']|e|]; cbn.
  - destruct (Hb cars b' eq_refl) as [b0 ->]. cbn. auto.
  - congruence.
  - exact I.
Qed.

(** ** The marker dispatch *)

Lemma dispatch_lookup (marker field icon_type text : string)
    (car_specs : gmap string string) :
  (marker, field) ∈ marker_table →
  dispatch icon_type text car_specs !! field =
  if decide (icon_type = marker) then Some text else car_specs !! field.
Proof.
  intros Hin. unfold marker_table in Hin.
  repeat (apply elem_of_cons in Hin as [[= -> ->]|Hin]);
    [..|by apply elem_of_nil in Hin];
    unfold dispatch, assign_if;
    repeat case_decide; simplify_map_eq; done.
Qed.

Lemma dispatch_unrecognized (icon_type text : string)
    (car_specs : gmap string string) :
  icon_type ∉ marker_table.*1 →
  dispatch icon_type text car_specs = car_specs.
Proof.
  intros Hnot. unfold dispatch, assign_if.
  repeat case_decide; try reflexivity;
    exfalso; apply Hnot; subst; cbn; set_solver.
Qed.

Lemma dispatch_dom (icon_type text : string) (car_specs : gmap string string) :
  dom car_specs = dom car_specs_default →
  dom (dispatch icon_type text car_specs) = dom car_specs_default.
Proof.
  intros Hdom. unfold dispatch, assign_if.
  repeat case_decide; rewrite ?dom_insert_L, Hdom;
    unfold car_specs_default; rewrite ?dom_insert_L, ?dom_empty_L;
    set_solver.
Qed.

Lemma dispatch_all_dom (entries : list (string * string)) :
  ∀ car_specs,
    dom car_specs = dom car_specs_default →
    dom (dispatch_all entries car_specs) = dom car_specs_default.
Proof.
  induction entries as [|e entries IH]; intros car_specs Hdom; [exact Hdom|].
  apply IH, dispatch_dom, Hdom.
Qed.

Lemma last_cons_default {A} (x : A) (l : list A) :
  last (x :: l) = Some (default x (last l)).
Proof.
  rewrite last_cons. destruct (last l); reflexivity.
Qed.

Lemma dispatch_all_lookup (marker field : string)
    (entries : list (string * string)) :
  (marker, field) ∈ marker_table →
  ∀ car_specs v,
    car_specs !! field = Some v →
    dispatch_all entries car_specs !! field =
    Some (default v (last (texts_of marker entries))).
Proof.
  intros Hin.
  induction entries as [|[m t] entries IH]; intros car_specs v Hv;
    [exact Hv|].
  cbn [dispatch_all foldl fst snd].
  unfold texts_of. rewrite filter_cons. cbn [fst].
  pose proof (dispatch_lookup marker field m t car_specs Hin) as Hstep.
  destruct (decide (m = marker)) as [->|Hne].
  - rewrite fmap_cons, last_cons_default. cbn [default snd].
    apply (IH _ _ Hstep).
  - rewrite Hv in Hstep. apply (IH _ _ Hstep).
Qed.

Lemma car_specs_default_lookup (marker field : string) :
  (marker, field) ∈ marker_table →
  car_specs_default !! field = Some "Unknown".
Proof.
  intros Hin. unfold marker_table in Hin.
  repeat (apply elem_of_cons in Hin as [[= -> ->]|Hin]);
    [..|by apply elem_of_nil in Hin]; reflexivity.
Qed.

(** C6.  The dispatch over a list of (marker, text) entries is a function
    of the entries whose result has exactly the seven fields of the fixed
    table; the field of a table row holds the text of the last entry that
    carries the row's marker, or "Unknown" when no entry does; an entry
    whose marker is not in the table can be deleted without changing the
    result. *)
Theorem marker_dispatch_follows_table (entries : list (string * string)) :
  dom (dispatch_all entries car_specs_default) =
    list_to_set marker_table.*2 ∧
  (∀ marker field,
     (marker, field) ∈ marker_table →
     dispatch_all entries car_specs_default !! field =
     Some (last_text marker entries)) ∧
  (∀ before after marker text,
     entries = before ++ (marker, text) :: after →
     marker ∉ marker_table.*1 →
     dispatch_all entries car_specs_default =
     dispatch_all (before ++ after) car_specs_default).
Proof.
  split; [|split].
  - rewrite (dispatch_all_dom entries car_specs_default eq_refl).
    unfold car_specs_default. rewrite !dom_insert_L, dom_empty_L.
    cbn. set_solver.
  - intros marker field Hin. unfold last_text.
    apply (dispatch_all_lookup marker field entries Hin).
    apply (car_specs_default_lookup marker field Hin).
  - intros before after marker text -> Hnot.
    unfold dispatch_all. rewrite !foldl_app. cbn [foldl fst snd].
    rewrite (dispatch_unrecognized marker text _ Hnot). reflexivity.
Qed.

(** ** The detail extractor *)

Lemma read_specs_run (available_specs : list SpecItem) :
  ∃ e, ∀ car_specs tr,
    read_specs available_specs car_specs tr =
    (match mapM entry_of available_specs with
     | Some entries => Returns (dispatch_all entries car_specs)
     | None => Raises e
     end, tr).
Proof.
  induction available_specs as [|each_spec rest [e IH]].
  - exists KeyError. reflexivity.
  - cbn [read_specs mapM]. unfold icon_type_of, entry_of.
    destruct (icon each_spec) as [[icon_link|]|].
    + destruct (split "#" icon_link !! 1) as [icon_type|] eqn:Hsplit.
      * exists e. intros car_specs tr. run. cbn. rewrite Hsplit. cbn.
        rewrite IH. destruct (mapM _ rest); reflexivity.
      * exists IndexError. intros car_specs tr. run. cbn. rewrite Hsplit.
        reflexivity.
    + exists AttributeError. reflexivity.
    + exists NoSuchElementException. reflexivity.
Qed.

Lemma read_key_specs_run (page : DetailPage) :
  ∃ e, ∀ tr,
    read_key_specs page tr =
    (match page_entries page with
     | Some entries => Returns (dispatch_all entries car_specs_default)
     | None => Raises e
     end, tr).
Proof.
  unfold read_key_specs, page_entries.
  destruct (key_specifications page) as [items|].
  - destruct (read_specs_run items) as [e He]. exists e. intros tr.
    cbn. run. apply He.
  - exists KeyError. reflexivity.
Qed.

Lemma read_emission_run (page : DetailPage) (tr : trace) :
  read_emission page tr =
  (match page_emission page with
   | Some next_emission => Returns next_emission
   | None => Raises IndexError
   end, tr).
Proof.
  unfold read_emission, page_emission.
  destruct (tech_specs page) as [items|]; [|reflexivity].
  cbn. run. destruct (last items) as [spans|]; [|reflexivity].
  cbn. destruct (spans !! 1); reflexivity.
Qed.

Lemma read_check_list_run (page : DetailPage) (tr : trace) :
  read_check_list page tr =
  (match page_checks page with
   | Some checks => Returns checks
   | None => Raises IndexError
   end, tr).
Proof.
  unfold read_check_list, page_checks, second_span.
  destruct (check_list page) as [items|]; [|reflexivity].
  cbn. run.
  destruct (items !! 0) as [spans0|]; [|reflexivity].
  cbn. destruct (spans0 !! 1); [|reflexivity].
  cbn. destruct (items !! 1) as [spans1|]; [|reflexivity].
  cbn. destruct (spans1 !! 1); [|reflexivity].
  cbn. destruct (items !! 2) as [spans2|]; [|reflexivity].
  cbn. destruct (spans2 !! 1); reflexivity.
Qed.

Lemma car_specs_lookup (marker field : string)
    (entries : list (string * string)) :
  (marker, field) ∈ marker_table →
  dispatch_all entries car_specs_default !! field =
  Some (last_text marker entries).
Proof.
  intros Hin. unfold last_text.
  apply (dispatch_all_lookup marker field entries Hin).
  apply (car_specs_default_lookup marker field Hin).
Qed.

(** [scrape_one_car], step by step: the open, the three required lookups,
    the three optional sections, the record, the close. *)
Lemma scrape_one_car_run (web : string → option DetailPage)
    (next_car : string) :
  ∃ specs_exn, ∀ tr,
    scrape_one_car web next_car tr =
    match web (detail_url next_car) with
    | None =>
        (Raises AttributeError, EvOpenFailed (detail_url next_car) :: tr)
    | Some page =>
        match scrape_page next_car page specs_exn with
        | Returns next_ad =>
            (Returns next_ad, EvClose :: EvOpen (detail_url next_car) :: tr)
        | other => (other, EvOpen (detail_url next_car) :: tr)
        end
    end.
Proof.
  destruct (web (detail_url next_car)) as [page|] eqn:Hweb.
  2: { exists KeyError. intros tr.
       unfold scrape_one_car, open_browser. rewrite Hweb. reflexivity. }
  destruct (read_key_specs_run page) as [e He]. exists e. intros tr.
  unfold scrape_one_car, open_browser, clean_up, scrape_page.
  rewrite Hweb. run.
  destruct (heading page) as [next_description|]; [|reflexivity].
  destruct (cash_price page) as [next_price|]; [|reflexivity].
  destruct (seller_name page) as [next_seller_para|]; [|reflexivity].
  rewrite He.
  destruct (page_entries page) as [entries|]; [|reflexivity].
  rewrite read_emission_run.
  destruct (page_emission page) as [next_emission|]; [|reflexivity].
  rewrite read_check_list_run.
  destruct (page_checks page) as [[[stolen write_off] scrapped]|];
    [|reflexivity].
  rewrite (car_specs_lookup "ks-manufactured-year" "year"),
    (car_specs_lookup "ks-mileage" "mileage"),
    (car_specs_lookup "ks-body-type" "body_style"),
    (car_specs_lookup "ks-doors" "doors"),
    (car_specs_lookup "ks-transmission" "transmission"),
    (car_specs_lookup "ks-engine-size" "engine_size"),
    (car_specs_lookup "ks-fuel-type" "fuel_type")
    by (unfold marker_table; set_solver).
  reflexivity.
Qed.

(** C8.  An advertisement returned for an identifier has as hyperlink the
    base URL, then "/classified/advert/", then the identifier; the
    orchestrator's back-fill of make and model leaves it unchanged. *)
Theorem hyperlink_is_detail_url (web : string → option DetailPage)
    (next_car : string) (tr tr' : trace) (next_ad : Advertisement.t) :
  scrape_one_car web next_car tr = (Returns next_ad, tr') →
  Advertisement.hyperlink next_ad =
    BASE_URL +:+ "/classified/advert/" +:+ next_car ∧
  ∀ next_make next_model,
    Advertisement.hyperlink
      (Advertisement.set_model next_model
         (Advertisement.set_make next_make next_ad)) =
    BASE_URL +:+ "/classified/advert/" +:+ next_car.
Proof.
  destruct (scrape_one_car_run web next_car) as [e He]. rewrite He.
  destruct (web (detail_url next_car)) as [page|]; [|discriminate].
  unfold scrape_page.
  destruct (heading page), (cash_price page), (seller_name page);
    try discriminate.
  destruct (page_entries page); try discriminate.
  destruct (page_emission page), (page_checks page); try discriminate.
  intros [= <- <-]. split; reflexivity.
Qed.

Lemma hyperlink_is_detail_url_witness :
  scrape_one_car (only (detail_url advert_id) plain_page) advert_id [] =
    (Returns plain_advert, [EvClose; EvOpen (detail_url advert_id)]) ∧
  Advertisement.hyperlink plain_advert =
    BASE_URL +:+ "/classified/advert/" +:+ advert_id ∧
  ∀ next_make next_model,
    Advertisement.hyperlink
      (Advertisement.set_model next_model
         (Advertisement.set_make next_make plain_advert)) =
    BASE_URL +:+ "/classified/advert/" +:+ advert_id.
Proof.
  split; [reflexivity|].
  apply (hyperlink_is_detail_url (only (detail_url advert_id) plain_page)
           advert_id [] [EvClose; EvOpen (detail_url advert_id)]).
  reflexivity.
Defined.

(** C9, amended.  On a detail page that has its heading, price and seller
    paragraph, whose key-specification items (if any) carry readable icon
    markers, and that has neither a tech-specs table nor a vehicle check
    list, the extraction returns: the CO2 emission and the three history
    fields are "Unknown", description and price are the page's texts, and
    the seller type is "Dealer" or "Private" by the anchor probe. *)
Theorem missing_sections_default (web : string → option DetailPage)
    (next_car : string) (page : DetailPage) (next_description next_price : string)
    (next_seller_para : option unit) (tr : trace) :
  web (detail_url next_car) = Some page →
  heading page = Some next_description →
  cash_price page = Some next_price →
  seller_name page = Some next_seller_para →
  is_Some (page_entries page) →
  tech_specs page = None →
  check_list page = None →
  ∃ next_ad,
    scrape_one_car web next_car tr =
      (Returns next_ad, [EvClose; EvOpen (detail_url next_car)] ++ tr) ∧
    Advertisement.co2emission next_ad = "Unknown" ∧
    Advertisement.was_stolen next_ad = "Unknown" ∧
    Advertisement.was_write_off next_ad = "Unknown" ∧
    Advertisement.was_scrapped next_ad = "Unknown" ∧
    Advertisement.description next_ad = next_description ∧
    Advertisement.price next_ad = next_price ∧
    Advertisement.seller_type next_ad =
      match next_seller_para with Some _ => "Dealer" | None => "Private" end.
Proof.
  intros Hweb Hheading Hprice Hseller [entries Hentries] Htech Hchecks.
  destruct (scrape_one_car_run web next_car) as [e He].
  exists (advert_of next_car next_description next_price next_seller_para
            entries "Unknown" ("Unknown", "Unknown", "Unknown")).
  split.
  - rewrite He, Hweb. unfold scrape_page, page_emission, page_checks.
    rewrite Hheading, Hprice, Hseller, Hentries, Htech, Hchecks. reflexivity.
  - repeat split. destruct next_seller_para; reflexivity.
Qed.

Lemma missing_sections_default_witness :
  only (detail_url advert_id) plain_page (detail_url advert_id) =
    Some plain_page ∧
  heading plain_page = Some "Ford Fiesta 1.0 Zetec" ∧
  cash_price plain_page = Some "5,000" ∧
  seller_name plain_page = Some (Some tt) ∧
  is_Some (page_entries plain_page) ∧
  tech_specs plain_page = None ∧
  check_list plain_page = None ∧
  ∃ next_ad,
    scrape_one_car (only (detail_url advert_id) plain_page) advert_id [] =
      (Returns next_ad, [EvClose; EvOpen (detail_url advert_id)] ++ []) ∧
    Advertisement.co2emission next_ad = "Unknown" ∧
    Advertisement.was_stolen next_ad = "Unknown" ∧
    Advertisement.was_write_off next_ad = "Unknown" ∧
    Advertisement.was_scrapped next_ad = "Unknown" ∧
    Advertisement.description next_ad = "Ford Fiesta 1.0 Zetec" ∧
    Advertisement.price next_ad = "5,000" ∧
    Advertisement.seller_type next_ad = "Dealer".
Proof.
  assert (Hentries : is_Some (page_entries plain_page))
    by (eexists; reflexivity).
  repeat (split; [reflexivity || exact Hentries|]).
  apply (missing_sections_default (only (detail_url advert_id) plain_page)
           advert_id plain_page "Ford Fiesta 1.0 Zetec" "5,000" (Some tt) []);
    reflexivity || exact Hentries.
Defined.

Lemma second_span_none (items : list (list string)) (i : nat) :
  i < 3 → second_span items i = None → check_list_unreadable items.
Proof.
  unfold second_span. intros Hi Hnone.
  destruct (items !! i) as [spans|] eqn:Hitem; cbn in Hnone.
  - right. exists i, spans. repeat split; try assumption.
    apply lookup_ge_None in Hnone. lia.
  - left. apply lookup_ge_None in Hitem. lia.
Qed.

Lemma unreadable_second_span (items : list (list string)) :
  check_list_unreadable items →
  ∃ i, i < 3 ∧ second_span items i = None.
Proof.
  unfold second_span. intros [Hshort|(i & spans & Hi & Hitem & Hspans)].
  - exists 2. split; [lia|].
    assert (items !! 2 = None) as -> by (apply lookup_ge_None; lia).
    reflexivity.
  - exists i. split; [exact Hi|]. rewrite Hitem. cbn.
    apply lookup_ge_None. lia.
Qed.

Lemma page_checks_none (page : DetailPage) (items : list (list string)) :
  check_list page = Some items →
  page_checks page = None ↔ check_list_unreadable items.
Proof.
  intros Hlist. unfold page_checks. rewrite Hlist. split.
  - intros Hnone.
    destruct (second_span items 0) eqn:H0;
      [|apply (second_span_none items 0); [lia|exact H0]].
    destruct (second_span items 1) eqn:H1;
      [|apply (second_span_none items 1); [lia|exact H1]].
    destruct (second_span items 2) eqn:H2;
      [|apply (second_span_none items 2); [lia|exact H2]].
    discriminate Hnone.
  - intros Hbad.
    destruct (unreadable_second_span items Hbad) as (i & Hi & Hnone).
    destruct i as [|[|[|i]]]; [| | |lia]; rewrite Hnone; cbn;
      repeat (destruct (second_span items _)); reflexivity.
Qed.

(** C10, as stated, fails: an item with fewer than two spans that is not
    one of the first three is never read, and the extraction returns. *)
Lemma spare_item_is_not_read :
  (∃ items spans,
     check_list long_check_page = Some items ∧
     spans ∈ items ∧ length spans < 2) ∧
  scrape_one_car (only (detail_url advert_id) long_check_page) advert_id [] =
    (Returns long_check_advert, [EvClose; EvOpen (detail_url advert_id)]).
Proof.
  split; [|reflexivity].
  exists [["Stolen"; "Clear"]; ["Scrapped"; "Clear"];
          ["Written off"; "Recorded"]; []], [].
  split; [reflexivity|]. split; [|cbn; lia].
  rewrite !elem_of_cons. auto.
Qed.

(** C10, amended.  Take a detail page on which everything before the
    vehicle check list reads (heading, price, seller paragraph, key
    specifications, CO2 emission) and on which the check list is present.
    The extraction raises [IndexError], with the session still open,
    exactly when the list has fewer than three items or one of its first
    three items has fewer than two spans; the three fields are not
    defaulted.  Items after the third are not read. *)
Theorem unreadable_check_list_raises (web : string → option DetailPage)
    (next_car : string) (page : DetailPage) (items : list (list string))
    (tr : trace) :
  web (detail_url next_car) = Some page →
  is_Some (heading page) →
  is_Some (cash_price page) →
  is_Some (seller_name page) →
  is_Some (page_entries page) →
  is_Some (page_emission page) →
  check_list page = Some items →
  scrape_one_car web next_car tr =
    (Raises IndexError, EvOpen (detail_url next_car) :: tr) ↔
  check_list_unreadable items.
Proof.
  intros Hweb [d Hd] [p Hp] [a Ha] [entries Hentries] [co2 Hco2] Hlist.
  destruct (scrape_one_car_run web next_car) as [e He].
  rewrite He, Hweb. unfold scrape_page.
  rewrite Hd, Hp, Ha, Hentries, Hco2.
  rewrite <- (page_checks_none page items Hlist).
  destruct (page_checks page); split; intros H;
    reflexivity || discriminate H.
Qed.

Lemma unreadable_check_list_raises_witness :
  only (detail_url advert_id) short_check_page (detail_url advert_id) =
    Some short_check_page ∧
  is_Some (heading short_check_page) ∧
  is_Some (cash_price short_check_page) ∧
  is_Some (seller_name short_check_page) ∧
  is_Some (page_entries short_check_page) ∧
  is_Some (page_emission short_check_page) ∧
  check_list short_check_page =
    Some [["Stolen"; "Clear"]; ["Scrapped"; "Clear"]] ∧
  (scrape_one_car (only (detail_url advert_id) short_check_page)
     advert_id [] =
     (Raises IndexError, EvOpen (detail_url advert_id) :: []) ↔
   check_list_unreadable [["Stolen"; "Clear"]; ["Scrapped"; "Clear"]]).
Proof.
  split; [reflexivity|].
  do 5 (split; [eexists; reflexivity|]).
  split; [reflexivity|].
  apply (unreadable_check_list_raises
           (only (detail_url advert_id) short_check_page) advert_id
           short_check_page [["Stolen"; "Clear"]; ["Scrapped"; "Clear"]] []);
    reflexivity || (eexists; reflexivity).
Defined.

(** ** Sessions *)

Lemma scrape_one_car_session (web : string → option DetailPage)
    (next_car : string) :
  closes_on_return (scrape_one_car web next_car []).
Proof.
  destruct (scrape_one_car_run web next_car) as [e He]. rewrite He.
  destruct (web (detail_url next_car)) as [page|]; [|reflexivity].
  destruct (scrape_page next_car page e); cbn; auto.
Qed.

(** C4, as stated, fails: a harvest whose "next" arrow is missing and an
    extraction whose check list is too short both end in an exception with
    the session still open. *)
Lemma session_left_open_on_error :
  search_one_car_type 4 single_web fiesta [] =
    (Raises NoSuchElementException, [EvRead 0; EvOpen (query_url fiesta)]) ∧
  session_live [EvRead 0; EvOpen (query_url fiesta)] = true ∧
  scrape_one_car (only (detail_url advert_id) short_check_page) advert_id [] =
    (Raises IndexError, [EvOpen (detail_url advert_id)]) ∧
  session_live [EvOpen (detail_url advert_id)] = true.
Proof. repeat split; reflexivity. Qed.

(** C4, amended.  A harvest or an extraction that returns has opened a
    session and has closed it before returning.  One that ends in an
    exception has closed nothing: if it had opened a session, the session
    is still open. *)
Theorem session_closed_on_return (fuel : nat) (web : string → option Site)
    (next_car : CarTup) (pages : string → option DetailPage)
    (advert : string) :
  closes_on_return (search_one_car_type fuel web next_car []) ∧
  closes_on_return (scrape_one_car pages advert []).
Proof.
  split.
  - apply search_one_car_type_session.
  - apply scrape_one_car_session.
Qed.

(** ** Fields of the advertisements *)

Lemma last_text_cases (marker : string) (entries : list (string * string)) :
  last_text marker entries = "Unknown" ∨
  (marker, last_text marker entries) ∈ entries.
Proof.
  unfold last_text, texts_of.
  destruct (last _) as [text|] eqn:Hlast; [right|left; reflexivity].
  apply last_Some_elem_of, list_elem_of_fmap in Hlast
    as ([m t] & -> & Hin).
  apply list_elem_of_filter in Hin as [Hmarker Hin].
  cbn in *. subst m. exact Hin.
Qed.

Lemma entry_of_text (each_spec : SpecItem) (marker text : string) :
  entry_of each_spec = Some (marker, text) → spec_text each_spec = text.
Proof.
  unfold entry_of.
  destruct (icon each_spec) as [[icon_link|]|]; cbn; try discriminate.
  destruct (split "#" icon_link !! 1); cbn; [|discriminate].
  intros [= _ <-]. reflexivity.
Qed.

Lemma mapM_entry_of_elem (items : list SpecItem)
    (entries : list (string * string)) (marker text : string) :
  mapM entry_of items = Some entries →
  (marker, text) ∈ entries →
  ∃ each_spec, each_spec ∈ items ∧ spec_text each_spec = text.
Proof.
  rewrite mapM_Some. intros Hall.
  induction Hall as [|each_spec entry items entries Hentry Hall IH];
    intros Hin.
  - apply elem_of_nil in Hin. destruct Hin.
  - apply elem_of_cons in Hin as [<-|Hin].
    + exists each_spec. split; [left|].
      apply (entry_of_text each_spec marker text Hentry).
    + destruct (IH Hin) as (it & Hit & Htext).
      exists it. split; [right; exact Hit|exact Htext].
Qed.

Lemma page_entries_spec_value (page : DetailPage)
    (entries : list (string * string)) (marker : string) :
  page_entries page = Some entries →
  spec_value page (last_text marker entries).
Proof.
  unfold page_entries, spec_value. intros Hentries.
  destruct (last_text_cases marker entries) as [Hdefault|Hin];
    [left; exact Hdefault|].
  destruct (key_specifications page) as [items|].
  - right.
    destruct (mapM_entry_of_elem items entries marker _ Hentries Hin)
      as (it & Hit & Htext).
    exists items, it. auto.
  - injection Hentries as <-. apply elem_of_nil in Hin. destruct Hin.
Qed.

Lemma page_emission_value (page : DetailPage) (v : string) :
  page_emission page = Some v → emission_value page v.
Proof.
  unfold page_emission, emission_value.
  destruct (tech_specs page) as [items|]; [|intros [= <-]; left; reflexivity].
  destruct (last items) as [spans|] eqn:Hlast; cbn; [|discriminate].
  intros Hv. right. exists items, spans. split; [reflexivity|]. split.
  - apply last_Some_elem_of, Hlast.
  - apply (list_elem_of_lookup_2 spans 1 v Hv).
Qed.

Lemma second_span_value (page : DetailPage) (items : list (list string))
    (i : nat) (v : string) :
  check_list page = Some items →
  second_span items i = Some v → check_value page v.
Proof.
  unfold second_span, check_value. intros Hlist.
  destruct (items !! i) as [spans|] eqn:Hitem; cbn; [|discriminate].
  intros Hv. right. exists items, spans. split; [exact Hlist|]. split.
  - apply (list_elem_of_lookup_2 items i spans Hitem).
  - apply (list_elem_of_lookup_2 spans 1 v Hv).
Qed.

Lemma page_checks_values (page : DetailPage) (checks : string * string * string) :
  page_checks page = Some checks →
  Forall (check_value page) [checks.1.1; checks.1.2; checks.2].
Proof.
  unfold page_checks.
  destruct (check_list page) as [items|] eqn:Hlist.
  - destruct (second_span items 0) as [stolen|] eqn:H0; cbn; [|discriminate].
    destruct (second_span items 1) as [scrapped|] eqn:H1; cbn; [|discriminate].
    destruct (second_span items 2) as [write_off|] eqn:H2; cbn; [|discriminate].
    intros [= <-]. cbn.
    repeat (apply Forall_cons_2; [eauto using second_span_value|]).
    apply Forall_nil_2.
  - intros [= <-].
    repeat (apply Forall_cons_2; [left; reflexivity|]). apply Forall_nil_2.
Qed.

(** What [scrape_one_car] returns was read from the page at the detail URL
    of the identifier. *)
Lemma scrape_one_car_returns (web : string → option DetailPage)
    (next_car : string) (tr tr' : trace) (next_ad : Advertisement.t) :
  scrape_one_car web next_car tr = (Returns next_ad, tr') →
  ∃ page,
    web (detail_url next_car) = Some page ∧
    scraped_from next_car page next_ad ∧
    Advertisement.make next_ad = "" ∧ Advertisement.model next_ad = "".
Proof.
  destruct (scrape_one_car_run web next_car) as [e He]. rewrite He.
  destruct (web (detail_url next_car)) as [page|]; [|discriminate].
  unfold scrape_page.
  destruct (heading page) as [d|] eqn:Hd,
           (cash_price page) as [p|] eqn:Hp,
           (seller_name page) as [a|] eqn:Ha;
    try discriminate.
  destruct (page_entries page) as [entries|] eqn:Hentries; try discriminate.
  destruct (page_emission page) as [co2|] eqn:Hco2,
           (page_checks page) as [checks|] eqn:Hchecks;
    try discriminate.
  intros [= <- <-]. exists page. split; [reflexivity|].
  split; [|split; reflexivity].
  unfold scraped_from, advert_of. cbn.
  repeat split; try assumption.
  - destruct a; auto.
  - repeat (apply Forall_cons_2;
              [apply (page_entries_spec_value page entries _ Hentries)|]).
    apply Forall_nil_2.
  - apply (page_emission_value page co2 Hco2).
  - apply (page_checks_values page checks Hchecks).
Qed.

Lemma for_each_returns {A B} (f : A → M B) (l : list A) :
  ∀ tr ys tr',
    for_each f l tr = (Returns ys, tr') →
    Forall2 (fun x y => ∃ t1 t2, f x t1 = (Returns y, t2)) l ys.
Proof.
  induction l as [|x l IH]; intros tr ys tr'; cbn [for_each]; run.
  - intros [= <- <-]. constructor.
  - destruct (f x tr) as [[y|e|] t1] eqn:Hx; try discriminate.
    destruct (for_each f l t1) as [[ys'|e|] t2] eqn:Hl; try discriminate.
    intros [= <- <-]. constructor; [eauto|]. apply (IH _ _ _ Hl).
Qed.

Lemma scraped_from_backfill (next_car next_make next_model : string)
    (page : DetailPage) (next_ad : Advertisement.t) :
  scraped_from next_car page next_ad →
  scraped_from next_car page
    (Advertisement.set_model next_model
       (Advertisement.set_make next_make next_ad)).
Proof. intros H. exact H. Qed.

Lemma scrape_one_type_returns (web : string → option DetailPage)
    (next_make next_model : string) (car_set : gset string)
    (tr tr' : trace) (ads : list Advertisement.t) :
  scrape_one_type web (next_make, next_model, car_set) tr = (Returns ads, tr') →
  Forall (fun ad =>
            ∃ next_car page,
              next_car ∈ car_set ∧
              web (detail_url next_car) = Some page ∧
              scraped_from next_car page ad ∧
              Advertisement.make ad = next_make ∧
              Advertisement.model ad = next_model) ads.
Proof.
  unfold scrape_one_type. cbn [fst snd]. intros Hrun.
  apply for_each_returns in Hrun.
  assert (Hfrom : Forall (fun next_car => next_car ∈ car_set) (elements car_set))
    by (apply Forall_forall; intros x Hx; apply elem_of_elements, Hx).
  induction Hrun as [|next_car ad ids ads (t1 & t2 & Hone) Hrest IH].
  - constructor.
  - apply Forall_cons in Hfrom as [Hid Hfrom].
    apply Forall_cons_2; [|apply IH, Hfrom].
    run.
    destruct (scrape_one_car web next_car t1) as [[ad0|e|] t3] eqn:Hcar;
      try discriminate.
    injection Hone as <- <-.
    destruct (scrape_one_car_returns web next_car t1 t3 ad0 Hcar)
      as (page & Hweb & Hfields & _ & _).
    exists next_car, page.
    split; [exact Hid|]. split; [exact Hweb|].
    split; [apply scraped_from_backfill, Hfields|]. split; reflexivity.
Qed.

(** C3, as stated, fails: a heading without text gives an advertisement
    whose description is the empty string. *)
Lemma empty_text_gives_empty_field :
  scrape_all_cars (only (detail_url advert_id) blank_page)
    [("Ford", "Fiesta", {[advert_id]})] [] =
    (Returns [blank_advert], [EvClose; EvOpen (detail_url advert_id)]) ∧
  Advertisement.description blank_advert = "" ∧
  ¬ Forall sentinel_or_nonempty (fields blank_advert).
Proof.
  split; [reflexivity|]. split; [reflexivity|].
  intros Hall. apply Forall_cons in Hall as [_ Hall].
  apply Forall_cons in Hall as [[Hsentinel|Hnonempty] _].
  - discriminate Hsentinel.
  - apply Hnonempty. reflexivity.
Qed.

(** C3, amended.  Every advertisement the pipeline returns was scraped
    from the page at the detail URL of an identifier of one of the
    tuples, and each of its seventeen fields holds a definite string:
    the hyperlink is that URL; make and model are the tuple's; description
    and price are the texts of the page's heading and price; the seller
    type is "Dealer" or "Private"; each of the seven specification fields
    is "Unknown" or the text of a key-specification item; the CO2 emission
    is "Unknown" or a span of the tech-specs table; each history field is
    "Unknown" or a span of the check list.  A text taken from the page or
    from the tuple is taken as it is, so it may be empty. *)
Theorem advertisement_fields_defined (web : string → option DetailPage)
    (these_cars : list (string * string * gset string)) (tr tr' : trace)
    (all_ads : list Advertisement.t) :
  scrape_all_cars web these_cars tr = (Returns all_ads, tr') →
  Forall (fun ad =>
            ∃ next_make next_model car_set next_car page,
              (next_make, next_model, car_set) ∈ these_cars ∧
              next_car ∈ car_set ∧
              web (detail_url next_car) = Some page ∧
              scraped_from next_car page ad ∧
              Advertisement.make ad = next_make ∧
              Advertisement.model ad = next_model) all_ads.
Proof.
  unfold scrape_all_cars. run.
  destruct (for_each _ these_cars tr) as [[lists|e|] t1] eqn:Hrun;
    try discriminate.
  intros [= <- <-]. apply for_each_returns in Hrun.
  induction Hrun as [|[[next_make next_model] car_set] ads tuples lists
                       (t2 & t3 & Hone) Hrest IH].
  - constructor.
  - cbn [concat]. apply Forall_app. split.
    + apply scrape_one_type_returns in Hone.
      eapply Forall_impl; [exact Hone|].
      intros ad (next_car & page & Hid & Hweb & Hfields & Hmake & Hmodel).
      exists next_make, next_model, car_set, next_car, page.
      split; [left|]. auto.
    + eapply Forall_impl; [exact IH|].
      intros ad (mk & md & cs & next_car & page & Hin & Hrest').
      exists mk, md, cs, next_car, page. split; [right; exact Hin|exact Hrest'].
Qed.

Lemma advertisement_fields_defined_witness :
  scrape_all_cars (only (detail_url advert_id) plain_page)
    [("Ford", "Fiesta", {[advert_id]})] [] =
    (Returns [Advertisement.set_model "Fiesta"
                (Advertisement.set_make "Ford" plain_advert)],
     [EvClose; EvOpen (detail_url advert_id)]) ∧
  Forall (fun ad =>
            ∃ next_make next_model car_set next_car page,
              (next_make, next_model, car_set) ∈
                [("Ford", "Fiesta", ({[advert_id]} : gset string))] ∧
              next_car ∈ car_set ∧
              only (detail_url advert_id) plain_page (detail_url next_car) =
                Some page ∧
              scraped_from next_car page ad ∧
              Advertisement.make ad = next_make ∧
              Advertisement.model ad = next_model)
    [Advertisement.set_model "Fiesta"
       (Advertisement.set_make "Ford" plain_advert)].
Proof.
  split; [reflexivity|].
  apply (advertisement_fields_defined
           (only (detail_url advert_id) plain_page)
           [("Ford", "Fiesta", {[advert_id]})] []
           [EvClose; EvOpen (detail_url advert_id)]).
  reflexivity.
Defined.

(** * Further properties *)

(** ** Harvests that do not return *)

Lemma harvest_events_advance (m : nat) :
  ∀ k, harvest_events k m = EvRead (k + m) :: advance_events k m.
Proof.
  induction m as [|m IH]; intros k; cbn [harvest_events advance_events].
  - rewrite Nat.add_0_r. reflexivity.
  - rewrite IH. replace (S k + m) with (k + S m) by lia. reflexivity.
Qed.

(** [m] rounds that all go on to the next page. *)
Lemma harvest_loop_advance (m : nat) :
  ∀ fuel total_cars s k tr,
    (∀ j, k ≤ j < k + m →
       (Z.of_nat (size (seen_upto s j)) < total_cars)%Z ∧
       next_arrow (s j) = Some true) →
    harvest_loop (m + fuel) total_cars
      (Some {| loaded := s; page_no := k |}) (seen_before s k) tr =
    harvest_loop fuel total_cars
      (Some {| loaded := s; page_no := k + m |}) (seen_before s (k + m))
      (advance_events k m ++ tr).
Proof.
  induction m as [|m IH]; intros fuel total_cars s k tr Hbefore.
  - cbn. rewrite Nat.add_0_r. reflexivity.
  - cbn [Nat.add]. rewrite harvest_loop_step. cbn. unfold current. cbn.
    rewrite add_all_union.
    change (seen_before s k ∪ list_to_set (result_ids (s k)))
      with (seen_upto s k).
    destruct (Hbefore k ltac:(lia)) as [Hlt Harrow].
    apply Z.leb_gt in Hlt. rewrite Hlt, Harrow.
    replace (k + S m) with (S k + m) by lia.
    change (seen_upto s k) with (seen_before s (S k)).
    rewrite IH by (intros j Hj; apply Hbefore; lia).
    rewrite <- app_assoc. reflexivity.
Qed.

(** The round at page [n] of a harvest whose earlier rounds all went on. *)
Lemma harvest_loop_reaches (n fuel : nat) (total_cars : Z) (s : Site)
    (tr : trace) :
  short_at s total_cars n →
  harvest_loop (n + S fuel) total_cars (Some (fresh s)) ∅ tr =
  match next_arrow (s n) with
  | None => (Raises NoSuchElementException, harvest_events 0 n ++ tr)
  | Some false =>
      (Raises TimeoutException, EvClick n :: harvest_events 0 n ++ tr)
  | Some true =>
      harvest_loop fuel total_cars
        (Some {| loaded := s; page_no := S n |}) (seen_upto s n)
        (EvClick n :: harvest_events 0 n ++ tr)
  end.
Proof.
  intros [Hbefore Hshort]. unfold fresh.
  pose proof (harvest_loop_advance n (S fuel) total_cars s 0 tr) as Hrun.
  cbn [seen_before Nat.add] in Hrun. rewrite Hrun.
  2: { intros j Hj. apply Hbefore. lia. }
  rewrite harvest_loop_step. cbn. unfold current. cbn.
  rewrite add_all_union.
  change (seen_before s n ∪ list_to_set (result_ids (s n)))
    with (seen_upto s n).
  apply Z.leb_gt in Hshort. rewrite Hshort.
  rewrite harvest_events_advance. cbn [Nat.add].
  destruct (next_arrow (s n)) as [[|]|]; reflexivity.
Qed.

(** X1.  When the identifiers read so far are still fewer than expected
    and the page has no "next" arrow, the harvest raises
    [NoSuchElementException]; the session is not closed. *)
Theorem harvest_fails_without_next_arrow (fuel : nat)
    (web : string → option Site) (next_car : CarTup) (s : Site)
    (total_cars actual_total : Z) (header : string) (n : nat) (tr : trace) :
  py_int (total next_car) = Some total_cars →
  web (query_url next_car) = Some s →
  count_header (s 0) = Some header →
  py_int (first_word header) = Some actual_total →
  short_at s total_cars n →
  next_arrow (s n) = None →
  n < fuel →
  search_one_car_type fuel web next_car tr =
  (Raises NoSuchElementException,
   harvest_events 0 n ++ EvOpen (query_url next_car) :: tr).
Proof.
  intros Htotal Hweb Hheader Hactual Hshort Harrow Hfuel.
  rewrite (search_one_car_type_opened fuel web next_car s total_cars
             actual_total header tr Htotal Hweb Hheader Hactual).
  replace fuel with (n + S (fuel - S n)) by lia.
  rewrite (harvest_loop_reaches n _ total_cars s _ Hshort), Harrow.
  reflexivity.
Qed.

Lemma harvest_fails_without_next_arrow_witness :
  search_one_car_type 3 single_web fiesta [] =
  (Raises NoSuchElementException,
   harvest_events 0 0 ++ EvOpen (query_url fiesta) :: []).
Proof.
  apply (harvest_fails_without_next_arrow 3 single_web fiesta single_site
           5 1 "1 car found" 0 []); try reflexivity; try lia.
  split; [intros j Hj; lia|]. vm_compute. reflexivity.
Defined.

(** X2.  When the "next" arrow is clicked and does not go stale within the
    wait, the harvest raises [TimeoutException] after the click; the
    session is not closed and nothing collected so far is returned. *)
Theorem harvest_times_out (fuel : nat)
    (web : string → option Site) (next_car : CarTup) (s : Site)
    (total_cars actual_total : Z) (header : string) (n : nat) (tr : trace) :
  py_int (total next_car) = Some total_cars →
  web (query_url next_car) = Some s →
  count_header (s 0) = Some header →
  py_int (first_word header) = Some actual_total →
  short_at s total_cars n →
  next_arrow (s n) = Some false →
  n < fuel →
  search_one_car_type fuel web next_car tr =
  (Raises TimeoutException,
   EvClick n :: harvest_events 0 n ++ EvOpen (query_url next_car) :: tr).
Proof.
  intros Htotal Hweb Hheader Hactual Hshort Harrow Hfuel.
  rewrite (search_one_car_type_opened fuel web next_car s total_cars
             actual_total header tr Htotal Hweb Hheader Hactual).
  replace fuel with (n + S (fuel - S n)) by lia.
  rewrite (harvest_loop_reaches n _ total_cars s _ Hshort), Harrow.
  reflexivity.
Qed.

Lemma harvest_times_out_witness :
  search_one_car_type 3 (only (query_url fiesta) stuck_site) fiesta [] =
  (Raises TimeoutException,
   EvClick 0 :: harvest_events 0 0 ++ EvOpen (query_url fiesta) :: []).
Proof.
  apply (harvest_times_out 3 (only (query_url fiesta) stuck_site) fiesta
           stuck_site 5 9 "9 cars found" 0 []); try reflexivity; try lia.
  split; [intros j Hj; lia|]. vm_compute. reflexivity.
Defined.

(** X3.  The loop has no bound of its own: on a site every page of which
    stays below the expected count and offers a working "next" arrow, the
    harvest does not return within any number of rounds; after [fuel]
    rounds it has read and clicked on [fuel] pages and is still going. *)
Theorem harvest_never_returns (fuel : nat)
    (web : string → option Site) (next_car : CarTup) (s : Site)
    (total_cars actual_total : Z) (header : string) (tr : trace) :
  py_int (total next_car) = Some total_cars →
  web (query_url next_car) = Some s →
  count_header (s 0) = Some header →
  py_int (first_word header) = Some actual_total →
  endless s total_cars →
  search_one_car_type fuel web next_car tr =
  (OutOfFuel, advance_events 0 fuel ++ EvOpen (query_url next_car) :: tr).
Proof.
  intros Htotal Hweb Hheader Hactual Hendless.
  rewrite (search_one_car_type_opened fuel web next_car s total_cars
             actual_total header tr Htotal Hweb Hheader Hactual).
  pose proof (harvest_loop_advance fuel 0 total_cars s 0
                (EvOpen (search_url (make next_car) (model next_car)) :: tr))
    as Hrun.
  rewrite Nat.add_0_r in Hrun. cbn [seen_before] in Hrun.
  unfold fresh. rewrite Hrun by (intros j _; apply Hendless).
  reflexivity.
Qed.

Lemma looping_site_endless : endless looping_site 5.
Proof.
  assert (Hseen : ∀ j, seen_upto looping_site j = {["A"]}).
  { induction j as [|j IH]; [reflexivity|].
    unfold seen_upto in *. cbn [seen_before] in *. rewrite IH.
    reflexivity. }
  intros j. rewrite Hseen. split; reflexivity.
Qed.

Lemma harvest_never_returns_witness :
  search_one_car_type 3 (only (query_url fiesta) looping_site) fiesta [] =
  (OutOfFuel, advance_events 0 3 ++ EvOpen (query_url fiesta) :: []).
Proof.
  apply (harvest_never_returns 3 (only (query_url fiesta) looping_site)
           fiesta looping_site 5 9 "9 cars found" []); try reflexivity.
  exact looping_site_endless.
Defined.

(** ** The count header *)

Lemma occurs_rstrip (c : ascii) (s : string) :
  is_space c = false → occurs c s → occurs c (rstrip s).
Proof.
  intros Hc. induction s as [|c' s IH]; cbn [occurs rstrip]; [tauto|].
  intros [->|Hocc].
  - destruct (rstrip s); [rewrite Hc|]; left; reflexivity.
  - specialize (IH Hocc).
    destruct (rstrip s); [destruct IH|]. right. exact IH.
Qed.

Lemma occurs_lstrip (c : ascii) (s : string) :
  is_space c = false → occurs c s → occurs c (lstrip s).
Proof.
  intros Hc. induction s as [|c' s IH]; cbn [occurs lstrip]; [tauto|].
  intros [->|Hocc].
  - rewrite Hc. left. reflexivity.
  - destruct (is_space c'); [apply IH, Hocc|right; exact Hocc].
Qed.

Lemma digits_value_occurs (c : ascii) (s : string) :
  digit_of c = None → c ≠ "_"%char → occurs c s →
  ∀ acc after_digit, digits_value acc after_digit s = None.
Proof.
  intros Hdigit Hunder.
  induction s as [|c' s IH]; cbn [occurs digits_value]; [tauto|].
  intros [->|Hocc] acc after_digit.
  - rewrite Hdigit.
    destruct (Ascii.eqb c "_") eqn:Heq; [|reflexivity].
    apply Ascii.eqb_eq in Heq. contradiction.
  - destruct (digit_of c'); [apply IH, Hocc|].
    destruct (Ascii.eqb c' "_" && after_digit); [apply IH, Hocc|reflexivity].
Qed.

(** No integer literal contains a comma. *)
Lemma py_int_comma (s : string) : occurs "," s → py_int s = None.
Proof.
  intros Hocc. unfold py_int.
  apply (occurs_rstrip "," s eq_refl), (occurs_lstrip "," _ eq_refl) in Hocc.
  assert (Hdigits : ∀ r, occurs "," r → literal_value r = None).
  { intros r Hr. unfold literal_value.
    destruct (MAX_STR_DIGITS <? digit_count r)%nat; [reflexivity|].
    apply (digits_value_occurs "," r); [reflexivity| |exact Hr].
    intros [=]. }
  destruct (lstrip (rstrip s)) as [|c0 r]; [destruct Hocc|].
  destruct (decide (c0 = ","%char)) as [->|Hne].
  - apply (Hdigits (String "," r)). left. reflexivity.
  - destruct Hocc as [Heq|Hocc]; [congruence|].
    pose proof (Hdigits r Hocc) as Hr.
    pose proof (Hdigits (String c0 r) (or_intror Hocc)) as Hcr.
    destruct c0 as [[] [] [] [] [] [] [] []]; try exact Hcr;
      rewrite Hr; reflexivity.
Qed.

(** X4.  The count header is looked up although its number is never used:
    on a results page without the header the harvest raises
    [NoSuchElementException] before it reads a single result, and the
    session is not closed. *)
Theorem harvest_needs_count_header (fuel : nat)
    (web : string → option Site) (next_car : CarTup) (s : Site)
    (total_cars : Z) (tr : trace) :
  py_int (total next_car) = Some total_cars →
  web (query_url next_car) = Some s →
  count_header (s 0) = None →
  search_one_car_type fuel web next_car tr =
  (Raises NoSuchElementException, EvOpen (query_url next_car) :: tr).
Proof.
  intros Htotal Hweb Hheader. unfold query_url in *.
  unfold search_one_car_type, open_browser. run.
  rewrite Htotal, Hweb. cbn. unfold current. cbn. rewrite Hheader.
  reflexivity.
Qed.

Lemma harvest_needs_count_header_witness :
  search_one_car_type 3
    (only (query_url fiesta) (fun _ => result_page None ["A"] None))
    fiesta [] =
  (Raises NoSuchElementException, EvOpen (query_url fiesta) :: []).
Proof.
  apply (harvest_needs_count_header 3 _ fiesta
           (fun _ => result_page None ["A"] None) 5 []); reflexivity.
Defined.

(** X5.  A count header whose first word contains a comma, such as
    "1,234 cars found", makes the harvest raise [ValueError] before it
    reads a single result, whatever the page shows and whatever count the
    query expects; the session is not closed. *)
Theorem harvest_rejects_thousands_separator (fuel : nat)
    (web : string → option Site) (next_car : CarTup) (s : Site)
    (total_cars : Z) (header : string) (tr : trace) :
  py_int (total next_car) = Some total_cars →
  web (query_url next_car) = Some s →
  count_header (s 0) = Some header →
  occurs "," (first_word header) →
  search_one_car_type fuel web next_car tr =
  (Raises ValueError, EvOpen (query_url next_car) :: tr).
Proof.
  intros Htotal Hweb Hheader Hcomma. unfold query_url in *.
  unfold search_one_car_type, open_browser. run.
  rewrite Htotal, Hweb. cbn. unfold current. cbn.
  rewrite Hheader, split_first_word, (py_int_comma _ Hcomma).
  reflexivity.
Qed.

Lemma harvest_rejects_thousands_separator_witness :
  search_one_car_type 3 (only (query_url fiesta) busy_site) fiesta [] =
  (Raises ValueError, EvOpen (query_url fiesta) :: []).
Proof.
  apply (harvest_rejects_thousands_separator 3
           (only (query_url fiesta) busy_site) fiesta busy_site 5
           "1,234 cars found" []); try reflexivity.
  vm_compute. tauto.
Defined.

(** ** Extractions that raise *)

(** X6.  For an extraction a page that cannot be loaded is fatal:
    [open_browser] returns [None] and the first lookup raises
    [AttributeError]. *)
Theorem extraction_needs_session (web : string → option DetailPage)
    (next_car : string) (tr : trace) :
  web (detail_url next_car) = None →
  scrape_one_car web next_car tr =
  (Raises AttributeError, EvOpenFailed (detail_url next_car) :: tr).
Proof.
  intros Hweb. unfold scrape_one_car, open_browser. rewrite Hweb.
  reflexivity.
Qed.

Lemma extraction_needs_session_witness :
  scrape_one_car unreachable advert_id [] =
  (Raises AttributeError, EvOpenFailed (detail_url advert_id) :: []).
Proof.
  apply (extraction_needs_session unreachable advert_id []). reflexivity.
Defined.

(** X7.  Heading, price and seller paragraph are not defaulted: when one
    of them is missing from the page the extraction raises
    [NoSuchElementException], whatever else the page holds, and the
    session is not closed. *)
Theorem extraction_needs_required_fields (web : string → option DetailPage)
    (next_car : string) (page : DetailPage) (tr : trace) :
  web (detail_url next_car) = Some page →
  heading page = None ∨ cash_price page = None ∨ seller_name page = None →
  scrape_one_car web next_car tr =
  (Raises NoSuchElementException, EvOpen (detail_url next_car) :: tr).
Proof.
  intros Hweb Hmissing.
  unfold scrape_one_car, open_browser. rewrite Hweb. run.
  destruct (heading page); [|reflexivity].
  destruct (cash_price page); [|reflexivity].
  destruct (seller_name page); [|reflexivity].
  destruct Hmissing as [H|[H|H]]; discriminate H.
Qed.

Lemma extraction_needs_required_fields_witness :
  scrape_one_car (only (detail_url advert_id) no_price_page) advert_id [] =
  (Raises NoSuchElementException, EvOpen (detail_url advert_id) :: []).
Proof.
  apply (extraction_needs_required_fields
           (only (detail_url advert_id) no_price_page) advert_id
           no_price_page []); [reflexivity|].
  right. left. reflexivity.
Defined.

Lemma icon_type_of_raises (each_spec : SpecItem) (e : exn) (tr : trace) :
  item_exn each_spec = Some e →
  icon_type_of each_spec tr = (Raises e, tr).
Proof.
  unfold item_exn, icon_type_of. run.
  destruct (icon each_spec) as [[icon_link|]|]; try (intros [= <-]; reflexivity).
  destruct (split "#" icon_link !! 1); [discriminate|].
  intros [= <-]. reflexivity.
Qed.

Lemma icon_type_of_returns (each_spec : SpecItem) :
  item_exn each_spec = None →
  ∃ icon_type, ∀ tr, icon_type_of each_spec tr = (Returns icon_type, tr).
Proof.
  unfold item_exn, icon_type_of. run.
  destruct (icon each_spec) as [[icon_link|]|]; try discriminate.
  destruct (split "#" icon_link !! 1) as [icon_type|]; [|discriminate].
  intros _. exists icon_type. reflexivity.
Qed.

Lemma read_specs_raises (before : list SpecItem) :
  ∀ bad after e car_specs tr,
    Forall (fun each_spec => item_exn each_spec = None) before →
    item_exn bad = Some e →
    read_specs (before ++ bad :: after) car_specs tr = (Raises e, tr).
Proof.
  induction before as [|each_spec before IH];
    intros bad after e car_specs tr Hbefore Hbad; cbn [app read_specs]; run.
  - rewrite (icon_type_of_raises bad e tr Hbad). reflexivity.
  - apply Forall_cons in Hbefore as [Hfirst Hbefore].
    destruct (icon_type_of_returns each_spec Hfirst) as [icon_type Hicon].
    rewrite Hicon. apply IH; assumption.
Qed.

(** C9, as stated, fails: a page with its heading, price and seller
    paragraph, without a tech-specs table and without a vehicle check
    list, one of whose key-specification items has no icon, ends the
    extraction with [NoSuchElementException]. *)
Lemma missing_sections_unreadable_item :
  tech_specs broken_spec_page = None ∧
  check_list broken_spec_page = None ∧
  heading broken_spec_page = Some "Ford Fiesta 1.0 Zetec" ∧
  cash_price broken_spec_page = Some "5,000" ∧
  seller_name broken_spec_page = Some None ∧
  scrape_one_car (only (detail_url advert_id) broken_spec_page) advert_id [] =
    (Raises NoSuchElementException, [EvOpen (detail_url advert_id)]).
Proof. repeat split; reflexivity. Qed.

(** X8.  The key specifications are defaulted field by field only while
    every item of the list can be read.  The first item without a [use]
    element, without the [xlink:href] attribute or without a [#] in it
    ends the extraction with [NoSuchElementException], [AttributeError] or
    [IndexError]: no field is defaulted, and the session is not closed. *)
Theorem unreadable_spec_item_raises (web : string → option DetailPage)
    (next_car : string) (page : DetailPage)
    (before after : list SpecItem) (bad : SpecItem) (e : exn) (tr : trace) :
  web (detail_url next_car) = Some page →
  is_Some (heading page) →
  is_Some (cash_price page) →
  is_Some (seller_name page) →
  key_specifications page = Some (before ++ bad :: after) →
  Forall (fun each_spec => item_exn each_spec = None) before →
  item_exn bad = Some e →
  scrape_one_car web next_car tr =
  (Raises e, EvOpen (detail_url next_car) :: tr).
Proof.
  intros Hweb [d Hd] [p Hp] [a Ha] Hitems Hbefore Hbad.
  unfold scrape_one_car, open_browser, read_key_specs. rewrite Hweb. run.
  rewrite Hd, Hp, Ha, Hitems. cbn [check_exists_by_class].
  rewrite (read_specs_raises before bad after e _ _ Hbefore Hbad).
  reflexivity.
Qed.

Lemma unreadable_spec_item_raises_witness :
  scrape_one_car (only (detail_url advert_id) broken_spec_page)
    advert_id [] =
  (Raises NoSuchElementException, EvOpen (detail_url advert_id) :: []).
Proof.
  apply (unreadable_spec_item_raises
           (only (detail_url advert_id) broken_spec_page) advert_id
           broken_spec_page
           [spec_item "/sprite.svg#ks-doors" "5 doors"] []
           {| icon := None; spec_text := "Petrol" |}
           NoSuchElementException []);
    try reflexivity; try (eexists; reflexivity).
  apply Forall_cons_2; [reflexivity|apply Forall_nil_2].
Defined.

(** ** What the extractor reads *)

Lemma split_without (sep : ascii) (s : string) :
  ¬ occurs sep s → split sep s = [s].
Proof.
  induction s as [|c s IH]; cbn [occurs split]; [reflexivity|].
  intros Hno. destruct (Ascii.eqb c sep) eqn:Heq.
  - apply Ascii.eqb_eq in Heq. tauto.
  - rewrite IH by tauto. reflexivity.
Qed.

Lemma split_at_first (sep : ascii) (before rest : string) :
  ¬ occurs sep before →
  split sep (before +:+ String sep rest) = before :: split sep rest.
Proof.
  induction before as [|c before IH]; cbn [occurs].
  - intros _. change ("" +:+ String sep rest) with (String sep rest).
    cbn [split]. rewrite Ascii.eqb_refl. reflexivity.
  - intros Hno.
    change (String c before +:+ String sep rest)
      with (String c (before +:+ String sep rest)).
    cbn [split]. destruct (Ascii.eqb c sep) eqn:Heq.
    + apply Ascii.eqb_eq in Heq. tauto.
    + rewrite IH by tauto. reflexivity.
Qed.

(** X9.  The marker of a key-specification item is the part of the icon
    link between its first [#] and its second [#] (or its end): whatever
    comes before the first [#] and after the second is ignored.  A link
    without [#] has no marker: the lookup raises [IndexError]. *)
Theorem icon_type_between_hashes (before marker after text : string)
    (tr : trace) :
  ¬ occurs "#" before →
  ¬ occurs "#" marker →
  icon_type_of (spec_item (before +:+ "#" +:+ marker) text) tr =
    (Returns marker, tr) ∧
  icon_type_of (spec_item (before +:+ "#" +:+ marker +:+ "#" +:+ after) text) tr =
    (Returns marker, tr) ∧
  icon_type_of (spec_item before text) tr = (Raises IndexError, tr).
Proof.
  intros Hbefore Hmarker. unfold icon_type_of, spec_item. run. cbn [icon].
  change ("#" +:+ marker) with (String "#" marker).
  change ("#" +:+ marker +:+ "#" +:+ after)
    with (String "#" (marker +:+ String "#" after)).
  rewrite !(split_at_first "#" before _ Hbefore).
  rewrite (split_at_first "#" marker _ Hmarker).
  rewrite (split_without "#" marker Hmarker).
  rewrite (split_without "#" before Hbefore).
  repeat split; reflexivity.
Qed.

Lemma icon_type_between_hashes_witness :
  icon_type_of (spec_item ("/sprite.svg" +:+ "#" +:+ "ks-doors") "5 doors") [] =
    (Returns "ks-doors", []) ∧
  icon_type_of
    (spec_item ("/sprite.svg" +:+ "#" +:+ "ks-doors" +:+ "#" +:+ "x") "5 doors")
    [] = (Returns "ks-doors", []) ∧
  icon_type_of (spec_item "/sprite.svg" "5 doors") [] =
    (Raises IndexError, []).
Proof.
  apply (icon_type_between_hashes "/sprite.svg" "ks-doors" "x" "5 doors" []);
    cbn [occurs]; intuition discriminate.
Defined.

(** An extraction on a loaded page with its three required elements. *)
Lemma scrape_one_car_sections (web : string → option DetailPage)
    (next_car : string) (page : DetailPage)
    (next_description next_price : string) (next_seller_para : option unit)
    (entries : list (string * string)) (tr : trace) :
  web (detail_url next_car) = Some page →
  heading page = Some next_description →
  cash_price page = Some next_price →
  seller_name page = Some next_seller_para →
  page_entries page = Some entries →
  scrape_one_car web next_car tr =
  match page_emission page, page_checks page with
  | Some next_emission, Some checks =>
      (Returns (advert_of next_car next_description next_price
                  next_seller_para entries next_emission checks),
       EvClose :: EvOpen (detail_url next_car) :: tr)
  | _, _ => (Raises IndexError, EvOpen (detail_url next_car) :: tr)
  end.
Proof.
  intros Hweb Hd Hp Ha Hentries.
  destruct (scrape_one_car_run web next_car) as [e He]. rewrite He, Hweb.
  unfold scrape_page. rewrite Hd, Hp, Ha, Hentries.
  destruct (page_emission page), (page_checks page); reflexivity.
Qed.



(** X11.  When the vehicle check list can be read, its first item gives
    [was_stolen], its second item [was_scrapped] and its third item
    [was_write_off], each from the item's second span; further items and
    further spans are ignored. *)
Theorem check_list_order (web : string → option DetailPage)
    (next_car : string) (page : DetailPage)
    (first second third : list string) (further : list (list string))
    (stolen scrapped write_off : string) (tr : trace) :
  web (detail_url next_car) = Some page →
  is_Some (heading page) →
  is_Some (cash_price page) →
  is_Some (seller_name page) →
  is_Some (page_entries page) →
  is_Some (page_emission page) →
  check_list page = Some (first :: second :: third :: further) →
  first !! 1 = Some stolen →
  second !! 1 = Some scrapped →
  third !! 1 = Some write_off →
  ∃ next_ad,
    scrape_one_car web next_car tr =
      (Returns next_ad, EvClose :: EvOpen (detail_url next_car) :: tr) ∧
    Advertisement.was_stolen next_ad = stolen ∧
    Advertisement.was_scrapped next_ad = scrapped ∧
    Advertisement.was_write_off next_ad = write_off.
Proof.
  intros Hweb [d Hd] [p Hp] [a Ha] [entries Hentries] [co2 Hco2] Hlist
    Hstolen Hscrapped Hwrite_off.
  rewrite (scrape_one_car_sections web next_car page d p a entries tr
             Hweb Hd Hp Ha Hentries).
  rewrite Hco2. unfold page_checks, second_span. rewrite Hlist. cbn.
  rewrite Hstolen. cbn. rewrite Hscrapped. cbn. rewrite Hwrite_off. cbn.
  eexists. repeat split; reflexivity.
Qed.

Lemma check_list_order_witness :
  ∃ next_ad,
    scrape_one_car (only (detail_url advert_id) full_page) advert_id [] =
      (Returns next_ad, EvClose :: EvOpen (detail_url advert_id) :: []) ∧
    Advertisement.was_stolen next_ad = "Clear" ∧
    Advertisement.was_scrapped next_ad = "Recorded" ∧
    Advertisement.was_write_off next_ad = "Clear".
Proof.
  apply (check_list_order (only (detail_url advert_id) full_page)
           advert_id full_page
           ["Stolen"; "Clear"] ["Scrapped"; "Recorded"]
           ["Written off"; "Clear"] [] "Clear" "Recorded" "Clear" []);
    try reflexivity; eexists; reflexivity.
Defined.

(** X12.  The seven specification fields of a returned advertisement
    follow the marker table: each holds the text of the last item of the
    page's key-specifications list whose icon marker is the field's, and
    "Unknown" when the list is absent or has no such item. *)
Theorem spec_fields_follow_table (web : string → option DetailPage)
    (next_car : string) (tr tr' : trace) (next_ad : Advertisement.t) :
  scrape_one_car web next_car tr = (Returns next_ad, tr') →
  ∃ page entries,
    web (detail_url next_car) = Some page ∧
    page_entries page = Some entries ∧
    Advertisement.year next_ad = last_text "ks-manufactured-year" entries ∧
    Advertisement.body_style next_ad = last_text "ks-body-type" entries ∧
    Advertisement.mileage next_ad = last_text "ks-mileage" entries ∧
    Advertisement.engine_size next_ad = last_text "ks-engine-size" entries ∧
    Advertisement.transmission next_ad = last_text "ks-transmission" entries ∧
    Advertisement.fuel_type next_ad = last_text "ks-fuel-type" entries ∧
    Advertisement.doors next_ad = last_text "ks-doors" entries.
Proof.
  destruct (scrape_one_car_run web next_car) as [e He]. rewrite He.
  destruct (web (detail_url next_car)) as [page|] eqn:Hweb; [|discriminate].
  unfold scrape_page.
  destruct (heading page), (cash_price page), (seller_name page);
    try discriminate.
  destruct (page_entries page) as [entries|] eqn:Hentries; try discriminate.
  destruct (page_emission page), (page_checks page); try discriminate.
  intros [= <- <-]. exists page, entries. repeat split; assumption.
Qed.

Lemma spec_fields_follow_table_witness :
  ∃ page entries,
    only (detail_url advert_id) full_page (detail_url advert_id) = Some page ∧
    page_entries page = Some entries ∧
    Advertisement.year
      (advert_of advert_id "Ford Fiesta 1.0 Zetec" "5,000" (Some tt)
         [("ks-doors", "5 doors"); ("ks-doors", "3 doors")] "99g/km"
         ("Clear", "Clear", "Recorded")) =
      last_text "ks-manufactured-year" entries ∧
    Advertisement.body_style
      (advert_of advert_id "Ford Fiesta 1.0 Zetec" "5,000" (Some tt)
         [("ks-doors", "5 doors"); ("ks-doors", "3 doors")] "99g/km"
         ("Clear", "Clear", "Recorded")) =
      last_text "ks-body-type" entries ∧
    Advertisement.mileage
      (advert_of advert_id "Ford Fiesta 1.0 Zetec" "5,000" (Some tt)
         [("ks-doors", "5 doors"); ("ks-doors", "3 doors")] "99g/km"
         ("Clear", "Clear", "Recorded")) =
      last_text "ks-mileage" entries ∧
    Advertisement.engine_size
      (advert_of advert_id "Ford Fiesta 1.0 Zetec" "5,000" (Some tt)
         [("ks-doors", "5 doors"); ("ks-doors", "3 doors")] "99g/km"
         ("Clear", "Clear", "Recorded")) =
      last_text "ks-engine-size" entries ∧
    Advertisement.transmission
      (advert_of advert_id "Ford Fiesta 1.0 Zetec" "5,000" (Some tt)
         [("ks-doors", "5 doors"); ("ks-doors", "3 doors")] "99g/km"
         ("Clear", "Clear", "Recorded")) =
      last_text "ks-transmission" entries ∧
    Advertisement.fuel_type
      (advert_of advert_id "Ford Fiesta 1.0 Zetec" "5,000" (Some tt)
         [("ks-doors", "5 doors"); ("ks-doors", "3 doors")] "99g/km"
         ("Clear", "Clear", "Recorded")) =
      last_text "ks-fuel-type" entries ∧
    Advertisement.doors
      (advert_of advert_id "Ford Fiesta 1.0 Zetec" "5,000" (Some tt)
         [("ks-doors", "5 doors"); ("ks-doors", "3 doors")] "99g/km"
         ("Clear", "Clear", "Recorded")) =
      last_text "ks-doors" entries.
Proof.
  apply (spec_fields_follow_table (only (detail_url advert_id) full_page)
           advert_id [] [EvClose; EvOpen (detail_url advert_id)]).
  reflexivity.
Defined.

(** ** The orchestrator *)

Lemma opens_app (t1 t2 : trace) : opens (t1 ++ t2) = opens t1 ++ opens t2.
Proof. apply omap_app. Qed.

Lemma harvest_loop_live (fuel : nat) :
  ∀ total_cars b acc tr r tr',
    harvest_loop fuel total_cars (Some b) acc tr = (r, tr') →
    session_state tr = Some true →
    session_state tr' = Some true ∧ opens tr' = opens tr.
Proof.
  induction fuel as [|fuel IH]; intros total_cars b acc tr r tr' H Hlive.
  - inversion H; subst. auto.
  - rewrite harvest_loop_step in H. cbn zeta in H.
    assert (Hread : session_state (EvRead (page_no b) :: tr) = Some true)
      by (cbn; rewrite Hlive; reflexivity).
    assert (Hclick : session_state
                       (EvClick (page_no b) :: EvRead (page_no b) :: tr) =
                     Some true)
      by (cbn; rewrite Hlive; reflexivity).
    destruct (total_cars <=? _)%Z.
    + inversion H; subst. auto.
    + destruct (next_arrow (current b)) as [[|]|].
      * apply IH in H as [-> ->]; auto.
      * inversion H; subst. auto.
      * inversion H; subst. auto.
Qed.

(** What a harvest leaves in the trace. *)
Lemma search_one_car_type_trace (fuel : nat) (web : string → option Site)
    (next_car : CarTup) (tr : trace) (out : outcome (gset string))
    (tr' : trace) :
  search_one_car_type fuel web next_car tr = (out, tr') →
  session_state tr = Some false →
  is_Some (session_state tr') ∧
  ∀ cars, out = Returns cars →
    session_state tr' = Some false ∧
    opens tr' = query_url next_car :: opens tr.
Proof.
  intros Hrun Hclosed.
  destruct (py_int (total next_car)) as [total_cars|] eqn:Htotal.
  2: { unfold search_one_car_type in Hrun. run. rewrite Htotal in Hrun.
       inversion Hrun; subst. split; [eauto|]. intros ? [=]. }
  destruct (web (query_url next_car)) as [s|] eqn:Hweb.
  2: { rewrite (search_one_car_type_unopened _ _ _ _ _ Htotal Hweb) in Hrun.
       inversion Hrun; subst. cbn. rewrite Hclosed.
       split; [eauto|]. intros ? [=]. }
  assert (Hopen : session_state (EvOpen (query_url next_car) :: tr) = Some true)
    by (cbn; rewrite Hclosed; reflexivity).
  destruct (count_header (s 0)) as [header|] eqn:Hheader.
  2: { unfold query_url in Hweb.
       unfold search_one_car_type, open_browser in Hrun. run.
       rewrite Htotal, Hweb in Hrun. cbn in Hrun. unfold current in Hrun.
       cbn in Hrun. rewrite Hheader in Hrun.
       inversion Hrun; subst. fold (query_url next_car). rewrite Hopen.
       split; [eauto|]. intros ? [=]. }
  destruct (py_int (first_word header)) as [actual_total|] eqn:Hactual.
  2: { unfold query_url in Hweb.
       unfold search_one_car_type, open_browser in Hrun. run.
       rewrite Htotal, Hweb in Hrun. cbn in Hrun. unfold current in Hrun.
       cbn in Hrun.
       rewrite Hheader, split_first_word, Hactual in Hrun.
       inversion Hrun; subst. fold (query_url next_car). rewrite Hopen.
       split; [eauto|]. intros ? [=]. }
  rewrite (search_one_car_type_opened fuel web next_car s total_cars
             actual_total header tr Htotal Hweb Hheader Hactual) in Hrun.
  fold (query_url next_car) in Hrun.
  destruct (harvest_loop _ _ _ _ _) as [r tr0] eqn:Hloop.
  pose proof (harvest_loop_live _ _ _ _ _ _ _ Hloop Hopen) as [Hlive Hopens].
  apply harvest_loop_session in Hloop as (_ & _ & Hb).
  destruct r as [[cars b']|e|]; cbn in Hrun.
  - destruct (Hb cars b' eq_refl) as [b0 ->]. inversion Hrun; subst.
    cbn [session_state]. rewrite Hlive.
    split; [eauto|]. intros ? _. split; [reflexivity|].
    change (opens (EvClose :: tr0)) with (opens tr0).
    rewrite Hopens. reflexivity.
  - inversion Hrun; subst. split; [eauto|]. intros ? [=].
  - inversion Hrun; subst. split; [eauto|]. intros ? [=].
Qed.

Lemma search_all_car_types_cons (fuel : nat) (web : string → option Site)
    (next_car : CarTup) (these_cars : list CarTup) (tr : trace) :
  search_all_car_types fuel web (next_car :: these_cars) tr =
  match search_one_car_type fuel web next_car tr with
  | (Returns next_set, tr1) =>
      match search_all_car_types fuel web these_cars tr1 with
      | (Returns results, tr2) =>
          (Returns ((make next_car, model next_car, next_set) :: results), tr2)
      | (Raises e, tr2) => (Raises e, tr2)
      | (OutOfFuel, tr2) => (OutOfFuel, tr2)
      end
  | (Raises e, tr1) => (Raises e, tr1)
  | (OutOfFuel, tr1) => (OutOfFuel, tr1)
  end.
Proof.
  unfold search_all_car_types. cbn [for_each]. run.
  destruct (search_one_car_type fuel web next_car tr) as [[next_set|e|] tr1];
    reflexivity.
Qed.

(** X13.  When [search_all_car_types] returns, it returns one tuple per
    query, in the order of the queries, each carrying the make and model of
    its query; it has opened one session per query, in that order, and
    each on the query's search URL. *)
Theorem search_all_keeps_order (fuel : nat) (web : string → option Site)
    (these_cars : list CarTup) :
  ∀ tr tr' results,
    search_all_car_types fuel web these_cars tr = (Returns results, tr') →
    results.*1 = (fun next_car => (make next_car, model next_car)) <$> these_cars ∧
    (session_state tr = Some false →
     session_state tr' = Some false ∧
     opens tr' = rev (query_url <$> these_cars) ++ opens tr).
Proof.
  induction these_cars as [|next_car these_cars IH]; intros tr tr' results.
  - intros [= <- <-]. auto.
  - rewrite search_all_car_types_cons.
    destruct (search_one_car_type fuel web next_car tr)
      as [[next_set|e|] tr1] eqn:Hone; try discriminate.
    destruct (search_all_car_types fuel web these_cars tr1)
      as [[rest|e|] tr2] eqn:Hrest; try discriminate.
    intros [= <- <-]. destruct (IH _ _ _ Hrest) as [Horder Htrace].
    split; [cbn; rewrite Horder; reflexivity|].
    intros Hclosed.
    destruct (search_one_car_type_trace _ _ _ _ _ _ Hone Hclosed)
      as [_ Hret].
    destruct (Hret next_set eq_refl) as [Hclosed1 Hopens1].
    destruct (Htrace Hclosed1) as [Hclosed2 Hopens2].
    split; [exact Hclosed2|].
    rewrite Hopens2, Hopens1. cbn [fmap list_fmap rev].
    rewrite <- app_assoc. reflexivity.
Qed.

Lemma search_all_keeps_order_witness :
  [("Ford", "Fiesta", ({["A"; "B"; "C"; "D"; "E"]} : gset string));
   ("Ford", "Focus", {["A"]})].*1 =
    (fun next_car => (make next_car, model next_car)) <$> [fiesta; focus] ∧
  (session_state [] = Some false →
   session_state (search_all_car_types 3 two_query_web [fiesta; focus] []).2 =
     Some false ∧
   opens (search_all_car_types 3 two_query_web [fiesta; focus] []).2 =
     rev (query_url <$> [fiesta; focus]) ++ opens []).
Proof.
  apply (search_all_keeps_order 3 two_query_web [fiesta; focus] []
           (search_all_car_types 3 two_query_web [fiesta; focus] []).2).
  reflexivity.
Defined.

(** X14.  A query whose harvest raises ends [search_all_car_types] with
    that exception: what the earlier queries found is lost, and the later
    queries are not touched. *)
Theorem search_all_aborts (fuel : nat) (web : string → option Site)
    (before : list CarTup) :
  ∀ next_car after tr tr1 tr2 found e,
    search_all_car_types fuel web before tr = (Returns found, tr1) →
    search_one_car_type fuel web next_car tr1 = (Raises e, tr2) →
    search_all_car_types fuel web (before ++ next_car :: after) tr =
    (Raises e, tr2).
Proof.
  induction before as [|first before IH];
    intros next_car after tr tr1 tr2 found e Hbefore Hbad.
  - injection Hbefore as <- <-. cbn [app].
    rewrite search_all_car_types_cons, Hbad. reflexivity.
  - rewrite search_all_car_types_cons in Hbefore.
    cbn [app]. rewrite search_all_car_types_cons.
    destruct (search_one_car_type fuel web first tr)
      as [[next_set|e0|] tr0]; try discriminate.
    destruct (search_all_car_types fuel web before tr0)
      as [[rest|e0|] tr0'] eqn:Hrest; try discriminate.
    injection Hbefore as <- <-.
    rewrite (IH next_car after tr0 tr0' tr2 rest e Hrest Hbad).
    reflexivity.
Qed.

Lemma search_all_aborts_witness :
  search_all_car_types 3 fiesta_web
    ([fiesta] ++ {| make := "Ford"; model := "Focus"; total := "3" |}
       :: [fiesta]) [] =
  (Raises AttributeError,
   EvOpenFailed (search_url "Ford" "Focus")
     :: snd (search_all_car_types 3 fiesta_web [fiesta] [])).
Proof.
  apply (search_all_aborts 3 fiesta_web [fiesta]
           {| make := "Ford"; model := "Focus"; total := "3" |} [fiesta] []
           (snd (search_all_car_types 3 fiesta_web [fiesta] []))
           _ [("Ford", "Fiesta", {["A"; "B"; "C"; "D"; "E"]})]);
    reflexivity.
Defined.

(** What an extraction leaves in the trace. *)
Lemma scrape_one_car_trace (web : string → option DetailPage)
    (next_car : string) (tr : trace) (out : outcome Advertisement.t)
    (tr' : trace) :
  scrape_one_car web next_car tr = (out, tr') →
  session_state tr = Some false →
  is_Some (session_state tr') ∧
  ∀ next_ad, out = Returns next_ad →
    session_state tr' = Some false ∧
    opens tr' = detail_url next_car :: opens tr ∧
    Advertisement.hyperlink next_ad = detail_url next_car.
Proof.
  destruct (scrape_one_car_run web next_car) as [e He]. rewrite He.
  intros Hrun Hclosed.
  destruct (web (detail_url next_car)) as [page|].
  - unfold scrape_page in Hrun.
    destruct (heading page), (cash_price page), (seller_name page),
      (page_entries page), (page_emission page), (page_checks page);
      inversion Hrun; subst; cbn; rewrite Hclosed;
      (split; [eauto|]); intros ? [=]; subst; auto.
  - inversion Hrun; subst. cbn. rewrite Hclosed.
    split; [eauto|]. intros ? [=].
Qed.

Lemma scrape_one_car_extractable (web : string → option DetailPage)
    (next_car : string) (tr : trace) :
  (∃ next_ad,
     scrape_one_car web next_car tr =
     (Returns next_ad, EvClose :: EvOpen (detail_url next_car) :: tr)) ↔
  ∃ page, web (detail_url next_car) = Some page ∧ extractable page.
Proof.
  destruct (scrape_one_car_run web next_car) as [e He]. rewrite He.
  unfold extractable, scrape_page. split.
  - intros [next_ad Hrun].
    destruct (web (detail_url next_car)) as [page|]; [|discriminate Hrun].
    exists page. split; [reflexivity|].
    destruct (heading page), (cash_price page), (seller_name page),
      (page_entries page), (page_emission page), (page_checks page);
      try discriminate Hrun.
    repeat split; eexists; reflexivity.
  - intros (page & -> & [d ->] & [p ->] & [a ->] & [entries ->] &
            [co2 ->] & [checks ->]).
    eexists. reflexivity.
Qed.

Lemma for_each_cons {A B} (f : A → M B) (x : A) (l : list A) (tr : trace) :
  for_each f (x :: l) tr =
  match f x tr with
  | (Returns y, tr1) =>
      match for_each f l tr1 with
      | (Returns ys, tr2) => (Returns (y :: ys), tr2)
      | (Raises e, tr2) => (Raises e, tr2)
      | (OutOfFuel, tr2) => (OutOfFuel, tr2)
      end
  | (Raises e, tr1) => (Raises e, tr1)
  | (OutOfFuel, tr1) => (OutOfFuel, tr1)
  end.
Proof.
  cbn [for_each]. run. destruct (f x tr) as [[y|e|] tr1]; reflexivity.
Qed.

(** A loop over steps that each leave the sessions in order leaves them in
    order. *)
Lemma for_each_sessions {A B} (f : A → M B) (l : list A) :
  (∀ x tr out tr',
     f x tr = (out, tr') → session_state tr = Some false →
     is_Some (session_state tr') ∧
     ∀ y, out = Returns y → session_state tr' = Some false) →
  ∀ tr out tr',
    for_each f l tr = (out, tr') → session_state tr = Some false →
    is_Some (session_state tr') ∧
    ∀ ys, out = Returns ys → session_state tr' = Some false.
Proof.
  intros Hstep. induction l as [|x l IH]; intros tr out tr'.
  - intros [= <- <-] Hclosed. split; [eauto|auto].
  - rewrite for_each_cons. intros Hrun Hclosed.
    destruct (f x tr) as [[y|e|] tr1] eqn:Hx.
    + destruct (Hstep _ _ _ _ Hx Hclosed) as [_ Hret].
      specialize (Hret y eq_refl).
      destruct (for_each f l tr1) as [[ys|e|] tr2] eqn:Hl;
        destruct (IH _ _ _ Hl Hret) as [Hok Hret2];
        inversion Hrun; subst; (split; [exact Hok|]); intros ? [=].
      apply (Hret2 ys eq_refl).
    + destruct (Hstep _ _ _ _ Hx Hclosed) as [Hok _].
      inversion Hrun; subst. split; [exact Hok|]. intros ? [=].
    + destruct (Hstep _ _ _ _ Hx Hclosed) as [Hok _].
      inversion Hrun; subst. split; [exact Hok|]. intros ? [=].
Qed.

Lemma scrape_one_type_sessions (web : string → option DetailPage)
    (each_tuple : string * string * gset string) (tr : trace)
    (out : outcome (list Advertisement.t)) (tr' : trace) :
  scrape_one_type web each_tuple tr = (out, tr') →
  session_state tr = Some false →
  is_Some (session_state tr') ∧
  ∀ ads, out = Returns ads → session_state tr' = Some false.
Proof.
  unfold scrape_one_type. apply for_each_sessions.
  intros next_car tr0 out0 tr0'. run.
  destruct (scrape_one_car web next_car tr0) as [r tr1] eqn:Hcar.
  intros Hrun Hclosed.
  destruct (scrape_one_car_trace _ _ _ _ _ Hcar Hclosed) as [Hok Hret].
  destruct r as [ad|e|]; inversion Hrun; subst;
    (split; [exact Hok|]); intros ? [=].
  apply (Hret ad eq_refl).
Qed.

(** X15.  Whatever their outcome, [search_all_car_types] and
    [scrape_all_cars] work with one browser session at a time: a page is
    opened only after the session before it was closed, results are read
    and "next" is clicked only inside a session, and only an open session
    is closed. *)
Theorem sessions_follow_one_another (fuel : nat)
    (web : string → option Site) (these_cars : list CarTup)
    (pages : string → option DetailPage)
    (found : list (string * string * gset string)) (tr : trace) :
  session_state tr = Some false →
  is_Some (session_state (search_all_car_types fuel web these_cars tr).2) ∧
  is_Some (session_state (scrape_all_cars pages found tr).2).
Proof.
  intros Hclosed. split.
  - destruct (search_all_car_types fuel web these_cars tr) as [out tr'] eqn:Hrun.
    unfold search_all_car_types in Hrun.
    eapply (for_each_sessions _ these_cars); [|exact Hrun|exact Hclosed].
    intros next_car tr0 out0 tr0'. run.
    destruct (search_one_car_type fuel web next_car tr0) as [r tr1] eqn:Hone.
    intros Hstep Hclosed0.
    destruct (search_one_car_type_trace _ _ _ _ _ _ Hone Hclosed0)
      as [Hok Hret].
    destruct r as [cars|e|]; inversion Hstep; subst;
      (split; [exact Hok|]); intros ? [=].
    apply (Hret cars eq_refl).
  - unfold scrape_all_cars. run.
    destruct (for_each (scrape_one_type pages) found tr) as [r tr'] eqn:Hrun.
    destruct (for_each_sessions (scrape_one_type pages) found
                (scrape_one_type_sessions pages) _ _ _ Hrun Hclosed)
      as [Hok _].
    destruct r; exact Hok.
Qed.

Lemma sessions_follow_one_another_witness :
  is_Some (session_state
             (search_all_car_types 3 fiesta_web [fiesta; fiesta_none] []).2) ∧
  is_Some (session_state
             (scrape_all_cars plain_pages
                [("Ford", "Fiesta", {["A"; "B"]})] []).2).
Proof.
  apply (sessions_follow_one_another 3 fiesta_web [fiesta; fiesta_none]
           plain_pages [("Ford", "Fiesta", {["A"; "B"]})] []).
  reflexivity.
Defined.

Lemma scrape_ids_structure (web : string → option DetailPage)
    (next_make next_model : string) (ids : list string) :
  ∀ tr tr' ads,
    for_each (fun next_car =>
                next_ad ← scrape_one_car web next_car;
                mret (Advertisement.set_model next_model
                        (Advertisement.set_make next_make next_ad)))
             ids tr = (Returns ads, tr') →
    stamp <$> ads =
      (fun next_car => (next_make, next_model, detail_url next_car)) <$> ids ∧
    (session_state tr = Some false →
     session_state tr' = Some false ∧
     opens tr' = rev (Advertisement.hyperlink <$> ads) ++ opens tr).
Proof.
  induction ids as [|next_car ids IH]; intros tr tr' ads.
  - intros [= <- <-]. auto.
  - rewrite for_each_cons. run.
    destruct (scrape_one_car web next_car tr) as [[ad0|e|] tr1] eqn:Hcar;
      try discriminate.
    destruct (for_each _ ids tr1) as [[rest|e|] tr2] eqn:Hrest;
      try discriminate.
    intros [= <- <-]. destruct (IH _ _ _ Hrest) as [Hstamps Htrace].
    assert (Hlink : Advertisement.hyperlink ad0 = detail_url next_car).
    { destruct (scrape_one_car_run web next_car) as [e He].
      rewrite He in Hcar.
      destruct (web (detail_url next_car)) as [page|]; [|discriminate].
      unfold scrape_page in Hcar.
      destruct (heading page), (cash_price page), (seller_name page),
        (page_entries page), (page_emission page), (page_checks page);
        try discriminate.
      injection Hcar as <- _. reflexivity. }
    split.
    + cbn [fmap list_fmap]. rewrite <- Hlink. f_equal. exact Hstamps.
    + intros Hclosed.
      destruct (scrape_one_car_trace _ _ _ _ _ Hcar Hclosed) as [_ Hret].
      destruct (Hret ad0 eq_refl) as (Hclosed1 & Hopens1 & _).
      destruct (Htrace Hclosed1) as [Hclosed2 Hopens2].
      split; [exact Hclosed2|].
      rewrite Hopens2, Hopens1. cbn [fmap list_fmap rev].
      change (Advertisement.hyperlink
                (Advertisement.set_model next_model
                   (Advertisement.set_make next_make ad0)))
        with (Advertisement.hyperlink ad0).
      rewrite Hlink, <- app_assoc. reflexivity.
Qed.

(** X16.  When [scrape_all_cars] returns, the advertisements come tuple by
    tuple in the order of the tuples: the group of a tuple holds one
    advertisement per identifier of the tuple's set, in whatever order the
    set is iterated, each stamped with the tuple's make and model and
    linked to the identifier's detail URL.  So there are as many
    advertisements as identifiers in all the sets together, and one
    session was opened for each, in the order of the advertisements, on
    its hyperlink. *)
Theorem scrape_all_structure (web : string → option DetailPage)
    (these_cars : list (string * string * gset string)) :
  ∀ tr tr' all_ads,
    scrape_all_cars web these_cars tr = (Returns all_ads, tr') →
    (∃ groups,
       all_ads = concat groups ∧
       Forall2 (fun each_tuple ads => stamp <$> ads ≡ₚ stamps_of each_tuple)
         these_cars groups) ∧
    length all_ads =
      sum_list ((fun each_tuple => size each_tuple.2) <$> these_cars) ∧
    (session_state tr = Some false →
     session_state tr' = Some false ∧
     opens tr' = rev (Advertisement.hyperlink <$> all_ads) ++ opens tr).
Proof.
  unfold scrape_all_cars. run.
  induction these_cars as [|[[next_make next_model] car_set] these_cars IH];
    intros tr tr' all_ads.
  - intros [= <- <-]. split; [|auto]. exists []. split; [reflexivity|].
    constructor.
  - rewrite for_each_cons.
    destruct (scrape_one_type web (next_make, next_model, car_set) tr)
      as [[ads|e|] tr1] eqn:Hone; try discriminate.
    specialize (IH tr1).
    destruct (for_each (scrape_one_type web) these_cars tr1)
      as [[lists|e|] tr2]; try discriminate.
    intros [= <- <-].
    destruct (IH tr2 (concat lists) eq_refl)
      as ((groups & Hconcat & Hgroups) & Hlen & Htrace).
    unfold scrape_one_type in Hone. cbn [fst snd] in Hone.
    destruct (scrape_ids_structure _ _ _ _ _ _ _ Hone) as [Hstamps1 Htrace1].
    split; [|split].
    + exists (ads :: groups). split.
      * cbn [concat]. rewrite Hconcat. reflexivity.
      * constructor; [|exact Hgroups].
        rewrite Hstamps1. reflexivity.
    + cbn [concat fmap list_fmap sum_list sum_list_with snd].
      rewrite length_app, Hlen.
      apply (f_equal length) in Hstamps1. rewrite !length_fmap in Hstamps1.
      rewrite Hstamps1. reflexivity.
    + intros Hclosed. destruct (Htrace1 Hclosed) as [Hclosed1 Hopens1].
      destruct (Htrace Hclosed1) as [Hclosed2 Hopens2].
      split; [exact Hclosed2|].
      cbn [concat]. rewrite Hopens2, Hopens1, fmap_app, rev_app_distr.
      rewrite <- app_assoc. reflexivity.
Qed.

Lemma scrape_all_structure_witness :
  (∃ groups,
     fiesta_ads ++ focus_ads = concat groups ∧
     Forall2 (fun each_tuple ads => stamp <$> ads ≡ₚ stamps_of each_tuple)
       [("Ford", "Fiesta", ({["A"; "B"]} : gset string));
        ("Ford", "Focus", {["C"]})] groups) ∧
  length (fiesta_ads ++ focus_ads) =
    sum_list ((fun each_tuple : string * string * gset string =>
                 size each_tuple.2)
                <$> [("Ford", "Fiesta", {["A"; "B"]});
                     ("Ford", "Focus", {["C"]})]) ∧
  (session_state [] = Some false →
   session_state
     (scrape_all_cars plain_pages
        [("Ford", "Fiesta", {["A"; "B"]}); ("Ford", "Focus", {["C"]})] []).2 =
     Some false ∧
   opens
     (scrape_all_cars plain_pages
        [("Ford", "Fiesta", {["A"; "B"]}); ("Ford", "Focus", {["C"]})] []).2 =
     rev (Advertisement.hyperlink <$> fiesta_ads ++ focus_ads) ++ opens []).
Proof.
  apply (scrape_all_structure plain_pages
           [("Ford", "Fiesta", {["A"; "B"]}); ("Ford", "Focus", {["C"]})]
           []
           (scrape_all_cars plain_pages
              [("Ford", "Fiesta", {["A"; "B"]}); ("Ford", "Focus", {["C"]})]
              []).2
           (fiesta_ads ++ focus_ads)).
  reflexivity.
Defined.

Lemma scrape_one_car_returns_extractable (web : string → option DetailPage)
    (next_car : string) (tr tr' : trace) (next_ad : Advertisement.t) :
  scrape_one_car web next_car tr = (Returns next_ad, tr') →
  ∃ page, web (detail_url next_car) = Some page ∧ extractable page.
Proof.
  intros Hrun. apply (scrape_one_car_extractable web next_car tr).
  exists next_ad. rewrite Hrun.
  destruct (scrape_one_car_run web next_car) as [e He]. rewrite He in Hrun.
  destruct (web (detail_url next_car)); [|discriminate].
  destruct (scrape_page next_car _ e); inversion Hrun; subst. reflexivity.
Qed.

Lemma scrape_one_type_total (web : string → option DetailPage)
    (next_make next_model : string) (car_set : gset string) :
  (∀ next_car, next_car ∈ car_set →
     ∃ page, web (detail_url next_car) = Some page ∧ extractable page) →
  ∀ tr, ∃ ads tr',
    scrape_one_type web (next_make, next_model, car_set) tr =
    (Returns ads, tr').
Proof.
  unfold scrape_one_type. cbn [fst snd]. intros Hall.
  assert (Hids : ∀ next_car, next_car ∈ elements car_set →
            ∃ page, web (detail_url next_car) = Some page ∧ extractable page)
    by (intros next_car Hin; apply Hall, elem_of_elements, Hin).
  clear Hall. induction (elements car_set) as [|next_car ids IH]; intros tr.
  - eexists _, _. reflexivity.
  - rewrite for_each_cons. run.
    destruct (proj2 (scrape_one_car_extractable web next_car tr)
                (Hids next_car ltac:(left))) as [ad ->].
    destruct (IH (fun x Hx => Hids x ltac:(right; exact Hx))
                (EvClose :: EvOpen (detail_url next_car) :: tr))
      as (ads & tr' & ->).
    eexists _, _. reflexivity.
Qed.

(** X17.  [scrape_all_cars] returns exactly when every identifier of
    every tuple leads to a page on which everything the extractor looks up
    can be read: a single identifier whose page cannot be loaded or read
    ends the whole batch with an exception, and no advertisement is
    returned. *)
Theorem batch_returns_iff_every_page_reads
    (web : string → option DetailPage)
    (these_cars : list (string * string * gset string)) (tr : trace) :
  (∃ all_ads tr',
     scrape_all_cars web these_cars tr = (Returns all_ads, tr')) ↔
  ∀ each_tuple next_car,
    each_tuple ∈ these_cars → next_car ∈ each_tuple.2 →
    ∃ page, web (detail_url next_car) = Some page ∧ extractable page.
Proof.
  unfold scrape_all_cars. run. split.
  - intros (all_ads & tr' & Hrun).
    destruct (for_each (scrape_one_type web) these_cars tr)
      as [[lists|e|] tr1] eqn:Hlists; try discriminate.
    apply for_each_returns in Hlists.
    intros each_tuple next_car Htuple Hid.
    clear Hrun.
    induction Hlists as [|each_tuple0 ads tuples lists (t1 & t2 & Hone) _ IH].
    + apply elem_of_nil in Htuple. destruct Htuple.
    + apply elem_of_cons in Htuple as [->|Htuple]; [|apply IH, Htuple].
      unfold scrape_one_type in Hone. apply for_each_returns in Hone.
      apply elem_of_elements in Hid.
      induction Hone as [|id ad ids ads0 (t3 & t4 & Hcar) _ IH2].
      * apply elem_of_nil in Hid. destruct Hid.
      * apply elem_of_cons in Hid as [->|Hid]; [|apply IH2, Hid].
        run.
        destruct (scrape_one_car web id t3) as [[ad0|e0|] t5] eqn:Hrun;
          try discriminate.
        apply (scrape_one_car_returns_extractable _ _ _ _ _ Hrun).
  - intros Hall. revert tr.
    induction these_cars as [|[[next_make next_model] car_set] these_cars IH];
      intros tr.
    + eexists _, _. reflexivity.
    + rewrite for_each_cons.
      destruct (scrape_one_type_total web next_make next_model car_set
                  (fun id Hid => Hall _ id ltac:(left) Hid) tr)
        as (ads & tr1 & ->).
      destruct (IH (fun t id Ht Hid => Hall t id ltac:(right; exact Ht) Hid)
                  tr1) as (all_ads & tr' & Hrest).
      destruct (for_each (scrape_one_type web) these_cars tr1)
        as [[lists|e|] tr2]; try discriminate.
      eexists _, _. reflexivity.
Qed.

(** ** Reading the queries *)

Lemma CarTup_make_take (rec : list string) :
  (3 ≤ length rec)%nat →
  ∃ next_car,
    CarTup_make (take 3 rec) = Some next_car ∧
    take 3 rec = [make next_car; model next_car; total next_car].
Proof.
  destruct rec as [|a [|b [|c rec]]]; cbn; try lia.
  intros _. eexists. split; reflexivity.
Qed.

Lemma CarTup_make_short (rec : list string) :
  CarTup_make (take 3 rec) = None ↔ length rec < 3.
Proof.
  destruct rec as [|a [|b [|c rec]]]; cbn; split;
    intros H; try reflexivity; try lia; discriminate H.
Qed.

(** X18.  From a file whose every row after the header has at least three
    fields, [read_from_csv] returns one query per row after the header, in
    the order of the rows: the query of a row is its first three fields
    (make, model, expected count), and further fields are ignored. *)
Theorem csv_rows_become_queries (fs : Files) (next_csv : string)
    (header : list string) (recs : list (list string)) :
  fs next_csv = Some (header :: recs) →
  Forall (fun rec => (3 ≤ length rec)%nat) recs →
  ∃ cars_in,
    read_from_csv fs next_csv = inr (Some cars_in) ∧
    length cars_in = length recs ∧
    ∀ i rec, recs !! i = Some rec →
      ∃ next_car,
        cars_in !! i = Some next_car ∧
        take 3 rec = [make next_car; model next_car; total next_car].
Proof.
  intros Hfile Hrows. unfold read_from_csv. rewrite Hfile.
  assert (Hsome : is_Some (mapM (fun rec => CarTup_make (take 3 rec)) recs)).
  { apply mapM_is_Some_2. eapply Forall_impl; [exact Hrows|].
    intros rec Hrec. destruct (CarTup_make_take rec Hrec) as (q & Hq & _).
    cbn. rewrite Hq. eauto. }
  destruct Hsome as [cars_in Hcars]. rewrite Hcars.
  exists cars_in. split; [reflexivity|].
  apply mapM_Some_1 in Hcars. split.
  - symmetry. apply (Forall2_length _ _ _ Hcars).
  - intros i rec Hi.
    destruct (Forall2_lookup_l _ _ _ i rec Hcars Hi) as (q & Hq & Hmake).
    exists q. split; [exact Hq|].
    destruct (CarTup_make_take rec) as (q' & Hq' & Hfields).
    + rewrite Forall_forall in Hrows. apply Hrows.
      apply (list_elem_of_lookup_2 recs i rec Hi).
    + rewrite Hmake in Hq'. injection Hq' as <-. exact Hfields.
Qed.

Lemma csv_rows_become_queries_witness :
  ∃ cars_in,
    read_from_csv sample_files CSV_FILE = inr (Some cars_in) ∧
    length cars_in = length (tail sample_rows) ∧
    ∀ i rec, tail sample_rows !! i = Some rec →
      ∃ next_car,
        cars_in !! i = Some next_car ∧
        take 3 rec = [make next_car; model next_car; total next_car].
Proof.
  apply (csv_rows_become_queries sample_files CSV_FILE
           ["make"; "model"; "total"] (tail sample_rows)).
  - reflexivity.
  - repeat (apply Forall_cons_2; [cbn; lia|]). apply Forall_nil_2.
Defined.

(** X19.  How [read_from_csv] fails.  A file that cannot be opened gives
    the result [None], not an exception.  A file without any row, not even
    a header, raises [StopIteration], and a row after the header with
    fewer than three fields (a blank line, for one) raises [TypeError];
    neither is caught. *)
Theorem csv_failures (fs : Files) (next_csv : string) :
  (read_from_csv fs next_csv = inr None ↔ fs next_csv = None) ∧
  (read_from_csv fs next_csv = inl StopIteration ↔ fs next_csv = Some []) ∧
  (read_from_csv fs next_csv = inl TypeError ↔
   ∃ header recs,
     fs next_csv = Some (header :: recs) ∧
     Exists (fun rec => length rec < 3) recs).
Proof.
  unfold read_from_csv.
  destruct (fs next_csv) as [[|header recs]|].
  - repeat split; try discriminate; try reflexivity.
    intros (h & r & [=] & _).
  - destruct (mapM _ recs) as [cars_in|] eqn:Hcars.
    + repeat split; try discriminate.
      intros (h & r & [= <- <-] & Hbad).
      apply (Exists_impl _ (fun rec => CarTup_make (take 3 rec) = None))
        in Hbad; [|intros rec; apply CarTup_make_short].
      apply mapM_None_2 in Hbad. congruence.
    + repeat split; try discriminate.
      intros _. exists header, recs. split; [reflexivity|].
      apply mapM_None_1 in Hcars.
      eapply Exists_impl; [exact Hcars|].
      intros rec. apply CarTup_make_short.
  - repeat split; try discriminate; try reflexivity.
    intros (h & r & [=] & _).
Qed.

(** ** The whole run *)

(** [main] once the queries are read: only the tenth of them is used. *)
Lemma main_run (fuel : nat) (fs : Files) (web : string → option Site)
    (pages : string → option DetailPage) (cars_in : list CarTup) :
  read_from_csv fs CSV_FILE = inr (Some cars_in) →
  main fuel fs web pages =
  match cars_in !! 9 with
  | None => (Crashed (Uncaught IndexError), [])
  | Some next_car =>
      match search_one_car_type fuel web next_car [] with
      | (Returns found, tr1) =>
          match scrape_one_type pages
                  (make next_car, model next_car, found) tr1 with
          | (Returns ads, tr2) =>
              match ads !! 1 with
              | Some ad => (Done (to_string ad), tr2)
              | None => (Crashed (Uncaught IndexError), tr2)
              end
          | (Raises e, tr2) => (Crashed (Uncaught e), tr2)
          | (OutOfFuel, tr2) => (Unfinished, tr2)
          end
      | (Raises e, tr1) => (Crashed (Uncaught e), tr1)
      | (OutOfFuel, tr1) => (Unfinished, tr1)
      end
  end.
Proof.
  intros Hcsv. unfold main. rewrite Hcsv. cbn zeta.
  pose proof (lookup_drop cars_in 9 0) as Hdrop.
  rewrite Nat.add_0_r in Hdrop. rewrite <- Hdrop.
  destruct (drop 9 cars_in) as [|next_car rest]; [reflexivity|].
  cbn [take lookup list_lookup]. run.
  rewrite search_all_car_types_cons.
  destruct (search_one_car_type fuel web next_car []) as [[found|e|] tr1];
    try reflexivity.
  unfold search_all_car_types. rewrite take_0. cbn [for_each]. run.
  unfold scrape_all_cars. run. rewrite for_each_cons.
  destruct (scrape_one_type pages (make next_car, model next_car, found) tr1)
    as [[ads|e|] tr2]; try reflexivity.
  cbn [for_each]. run. cbn [concat]. rewrite app_nil_r.
  destruct (ads !! 1); reflexivity.
Qed.

(** X20.  Without the CSV file nothing is scraped: [read_from_csv] returns
    [None], the slice of [None] raises [TypeError], and no browser is
    started. *)
Theorem main_without_csv (fuel : nat) (fs : Files)
    (web : string → option Site) (pages : string → option DetailPage) :
  fs CSV_FILE = None →
  main fuel fs web pages = (Crashed TypeError, []).
Proof.
  intros Hfile. unfold main, read_from_csv. rewrite Hfile. reflexivity.
Qed.

Lemma main_without_csv_witness :
  main 3 unreachable fiesta_web plain_pages = (Crashed TypeError, []).
Proof.
  apply (main_without_csv 3 unreachable fiesta_web plain_pages). reflexivity.
Defined.

(** X21.  [main] searches for the tenth query only.  With a well-formed
    CSV file of fewer than ten rows after the header it searches for
    nothing, scrapes nothing, and ends with [IndexError] on the empty list
    of advertisements, without starting a browser. *)
Theorem main_short_csv (fuel : nat) (fs : Files)
    (web : string → option Site) (pages : string → option DetailPage)
    (header : list string) (recs : list (list string)) :
  fs CSV_FILE = Some (header :: recs) →
  Forall (fun rec => (3 ≤ length rec)%nat) recs →
  (length recs ≤ 9)%nat →
  main fuel fs web pages = (Crashed (Uncaught IndexError), []).
Proof.
  intros Hfile Hrows Hshort.
  assert (Hcsv : ∃ cars_in,
            read_from_csv fs CSV_FILE = inr (Some cars_in) ∧
            length cars_in = length recs).
  { unfold read_from_csv. rewrite Hfile.
    destruct (mapM (fun rec => CarTup_make (take 3 rec)) recs)
      as [cars_in|] eqn:Hcars.
    - exists cars_in. split; [reflexivity|].
      apply mapM_Some_1, Forall2_length in Hcars. auto.
    - exfalso. apply mapM_None_1 in Hcars.
      rewrite Exists_exists in Hcars. destruct Hcars as (rec & Hin & Hnone).
      apply CarTup_make_short in Hnone.
      rewrite Forall_forall in Hrows. specialize (Hrows rec Hin). lia. }
  destruct Hcsv as (cars_in & Hcsv & Hlen).
  rewrite (main_run fuel fs web pages cars_in Hcsv).
  rewrite (proj2 (lookup_ge_None cars_in 9)) by lia. reflexivity.
Qed.

Lemma main_short_csv_witness :
  main 3 (only CSV_FILE [["make"; "model"; "total"]; ["Ford"; "Fiesta"; "5"]])
    fiesta_web plain_pages =
  (Crashed (Uncaught IndexError), []).
Proof.
  apply (main_short_csv 3 _ fiesta_web plain_pages
           ["make"; "model"; "total"] [["Ford"; "Fiesta"; "5"]]).
  - reflexivity.
  - apply Forall_cons_2; [cbn; lia|apply Forall_nil_2].
  - cbn. lia.
Defined.


